(** * pytest-purkinje: the change watcher and the test-session reporter

    A shallow embedding of [pytest_purkinje/handler.py] (class [Handler]) and
    of [pytest_purkinje/testmonitorplugin.py] (class [TestMonitorPlugin]),
    with the properties of their event processing.

    Python methods mutate [self] and the process around it and may raise.
    They are embedded as functions in a state-and-exception monad over a
    record of the mutable state.  A raised exception keeps the mutations made
    before it, as in Python. *)

From Stdlib Require Import QArith Ascii.
From stdpp Require Import base strings list gmap.

Local Open Scope string_scope.
Local Open Scope list_scope.

(** ** Exceptions and the monad *)

Inductive exn : Type :=
  | KeyError (key : string)
  | ValueError (msg : string)
  | Exception (msg : string).

Inductive completion (A : Type) : Type :=
  | Returned (a : A)
  | Raised (e : exn).
Arguments Returned {A} a.
Arguments Raised {A} e.

Definition M (S A : Type) : Type := S -> completion A * S.

Definition ret {S A} (a : A) : M S A := fun s => (Returned a, s).

Definition raise {S A} (e : exn) : M S A := fun s => (Raised e, s).

Definition bind {S A B} (m : M S A) (k : A -> M S B) : M S B :=
  fun s =>
    match m s with
    | (Returned a, s') => k a s'
    | (Raised e, s') => (Raised e, s')
    end.

Definition get {S} : M S S := fun s => (Returned s, s).

Definition modify {S} (f : S -> S) : M S unit := fun s => (Returned tt, f s).

(** [try: body finally: cleanup]: the cleanup runs on both exits of the body;
    the body's outcome is the statement's, unless the cleanup itself raises. *)
Definition try_finally {S A} (body : M S A) (cleanup : M S unit) : M S A :=
  fun s =>
    match body s with
    | (r, s') =>
      match cleanup s' with
      | (Returned _, s'') => (r, s'')
      | (Raised e, s'') => (Raised e, s'')
      end
    end.

(** [try: body except Exception as e: handler e] *)
Definition try_except {S A} (body : M S A) (handler : exn -> M S A) : M S A :=
  fun s =>
    match body s with
    | (Returned a, s') => (Returned a, s')
    | (Raised e, s') => handler e s'
    end.

Declare Scope py_scope.
Delimit Scope py_scope with py.
Notation "x <- m ;; k" := (bind m (fun x => k))
  (at level 100, m at next level, right associativity) : py_scope.
Notation "m ;; k" := (bind m (fun _ => k))
  (at level 100, right associativity) : py_scope.

(** ** Python built-ins used by the two classes *)

(** [s.endswith(suffix)] *)
Definition endswith (s suffix : string) : bool :=
  (String.length suffix <=? String.length s)%nat &&
  String.eqb
    (String.substring (String.length s - String.length suffix)
               (String.length suffix) s)
    suffix.

(** [s.split(sep)] for a non-empty separator: [skip] counts the characters
    of a separator occurrence still to be dropped. *)
Fixpoint split_go (sep s cur : string) (skip : nat) : list string :=
  match s with
  | EmptyString => [cur]
  | String c s' =>
    match skip with
    | S k => split_go sep s' cur k
    | O =>
      if String.prefix sep s
      then cur :: split_go sep s' "" (String.length sep - 1)
      else split_go sep s' (cur +:+ String c "") 0
    end
  end.

Definition split (s sep : string) : list string := split_go sep s "" 0.

(** [int(x)] on a number: truncation towards zero.  The plugin applies it
    to a difference of clock readings times 1000, which is computed here
    over the rationals, without the rounding of floating point. *)
Definition py_int (x : Q) : Z := Z.quot (Qnum x) (Zpos (Qden x)).

(** [x < y] on clock readings. *)
Definition Qltb (x y : Q) : bool := negb (Qle_bool y x).

(** [c in s] for a character [c]. *)
Fixpoint contains_char (c : Ascii.ascii) (s : string) : bool :=
  match s with
  | EmptyString => false
  | String a s' => Ascii.eqb a c || contains_char c s'
  end.

(** ** The change watcher: [handler.py] *)

Module Handler.

Definition FILE_CACHE_SIZE : N := 10000.

(** Seconds.  Clock readings ([time.time()]) are modelled as rationals. *)
Definition FILE_CACHE_AGE : Q := 1.

(** The events of [watchdog.events] that the observer hands to
    [on_created], [on_deleted], [on_modified] and [on_moved]: one class per
    kind for files and one for directories.  The two moved classes carry a
    destination path; [FileMovedEvent] is the class that the handler tests
    for, and [DirMovedEvent] is not an instance of it. *)
Inductive FileSystemEvent : Type :=
  | FileCreatedEvent (src : string)
  | FileDeletedEvent (src : string)
  | FileModifiedEvent (src : string)
  | FileMovedEvent (src dest : string)
  | DirCreatedEvent (src : string)
  | DirDeletedEvent (src : string)
  | DirModifiedEvent (src : string)
  | DirMovedEvent (src dest : string).

Definition src_path (event : FileSystemEvent) : string :=
  match event with
  | FileCreatedEvent src | FileDeletedEvent src | FileModifiedEvent src => src
  | FileMovedEvent src _ => src
  | DirCreatedEvent src | DirDeletedEvent src | DirModifiedEvent src => src
  | DirMovedEvent src _ => src
  end.

(** The attribute [dest_path], which the moved events have. *)
Definition dest_path (event : FileSystemEvent) : option string :=
  match event with
  | FileMovedEvent _ dest | DirMovedEvent _ dest => Some dest
  | _ => None
  end.

(** The attribute [is_directory]. *)
Definition is_directory (event : FileSystemEvent) : bool :=
  match event with
  | DirCreatedEvent _ | DirDeletedEvent _ | DirModifiedEvent _
  | DirMovedEvent _ _ => true
  | _ => false
  end.

(** *** The debounce cache *)

(** Modelled from the spec: the debounce cache is an
    [expiringdict.ExpiringDict], a class of a third-party package whose
    source is not in the repository.  It is an insertion-ordered dictionary
    from a key to a pair of the value and the time it was set, bounded by
    [max_len] entries, in which an entry of the age [max_age] or older is
    treated as absent. *)
Record ExpiringDict : Type := mkExpiringDict {
  max_len : N;
  max_age : Q;
  items : list (string * (bool * Q))
}.

Section OrderedDict.
Context {V : Type}.

Fixpoint od_get (key : string) (l : list (string * V)) : option V :=
  match l with
  | [] => None
  | (k, v) :: l' => if String.eqb k key then Some v else od_get key l'
  end.

Fixpoint od_del (key : string) (l : list (string * V)) : list (string * V) :=
  match l with
  | [] => []
  | (k, v) :: l' =>
    if String.eqb k key then od_del key l' else (k, v) :: od_del key l'
  end.

(** An existing key keeps its position, a new key goes last. *)
Fixpoint od_set (key : string) (v : V) (l : list (string * V))
  : list (string * V) :=
  match l with
  | [] => [(key, v)]
  | (k, v') :: l' =>
    if String.eqb k key then (k, v) :: l' else (k, v') :: od_set key v l'
  end.

(** [popitem(last=False)] *)
Definition od_popfirst (l : list (string * V)) : list (string * V) :=
  tail l.
End OrderedDict.

(** *** The handler object and the process around it *)

Record World : Type := mkWorld {
  _tests_running : bool;
  _file_cache : ExpiringDict;
  (** how many times [time.time()] has been read *)
  clock_reads : nat;
  (** the commands passed to [os.system], oldest first *)
  os_system_calls : list string;
  (** the lines printed, oldest first *)
  stdout : list string
}.

Definition set_tests_running (b : bool) (w : World) : World :=
  mkWorld b (_file_cache w) (clock_reads w) (os_system_calls w) (stdout w).

Definition set_file_cache (d : ExpiringDict) (w : World) : World :=
  mkWorld (_tests_running w) d (clock_reads w) (os_system_calls w) (stdout w).

Definition set_items (l : list (string * (bool * Q))) (w : World) : World :=
  set_file_cache
    (mkExpiringDict (max_len (_file_cache w)) (max_age (_file_cache w)) l) w.

Definition print (line : string) : M World unit :=
  modify (fun w =>
    mkWorld (_tests_running w) (_file_cache w) (clock_reads w)
            (os_system_calls w) (stdout w ++ [line])).

Section Methods.
(** The environment: the successive readings of the clock, what a call of
    [os.system] does (returns an exit status or raises) given the calls
    made before it, and the text of an event. *)
Variable clock : nat -> Q.
Variable os_system : list string -> string -> completion Z.
Variable str_event : FileSystemEvent -> string.

Definition time_time : M World Q :=
  fun w =>
    (Returned (clock (clock_reads w)),
     mkWorld (_tests_running w) (_file_cache w) (S (clock_reads w))
             (os_system_calls w) (stdout w)).

Definition call_os_system (command : string) : M World Z :=
  fun w =>
    (os_system (os_system_calls w) command,
     mkWorld (_tests_running w) (_file_cache w) (clock_reads w)
             (os_system_calls w ++ [command]) (stdout w)).

(** Modelled from the spec: [key in self._file_cache], the lookup of
  [ExpiringDict].  Staleness is checked lazily, here: the clock is read for
  a stored key, and a stale entry is deleted and reported as absent. *)
Definition file_cache_contains (key : string) : M World bool :=
  (w <- get;;
   match od_get key (items (_file_cache w)) with
   | None => ret false
   | Some item =>
     now <- time_time;;
     if Qltb (now - snd item) (max_age (_file_cache w))
     then ret true
     else (modify (fun w => set_items (od_del key (items (_file_cache w))) w);;
           ret false)
   end)%py.

(** Modelled from the spec: [self._file_cache[key] = value], the store of
  [ExpiringDict].  When the dictionary is full the oldest-inserted entry
  is dropped first, whatever its age; the key is stored with the time of
  the store. *)
Definition file_cache_setitem (key : string) (value : bool) : M World unit :=
  (w <- get;;
   (if (N.of_nat (List.length (items (_file_cache w))) =? max_len (_file_cache w))%N
    then modify (fun w => set_items (od_popfirst (items (_file_cache w))) w)
    else ret tt);;
   now <- time_time;;
   modify (fun w => set_items (od_set key (value, now) (items (_file_cache w))) w))%py.

Definition clear_cache : M World unit :=
  modify (set_file_cache (mkExpiringDict FILE_CACHE_SIZE FILE_CACHE_AGE [])).

Definition __init__ : M World unit :=
  (modify (set_tests_running false);;
   clear_cache)%py.

Definition _filter (path : string) : bool := endswith path ".py".

Definition _is_relevant (event : FileSystemEvent) : bool :=
  let relevant := false in
  let relevant :=
    match event with
    | FileMovedEvent _ dest => if _filter dest then true else relevant
    | _ => relevant
    end in
  let relevant := if _filter (src_path event) then true else relevant in
  relevant.

Definition _get_cache_key (event : FileSystemEvent) : string :=
  match event with
  | FileMovedEvent _ dest => dest
  | _ => src_path event
  end.

Definition run_tests : M World unit :=
  (print "Running tests";;
   modify (set_tests_running true);;
   try_finally
     (_ <- call_os_system "py.test";; ret tt)
     (modify (set_tests_running false)))%py.

Definition _trigger (event : FileSystemEvent) : M World unit :=
  (w <- get;;
   if _tests_running w then ret tt
   else
     let relevant := _is_relevant event in
     let cache_key := _get_cache_key event in
     present <- file_cache_contains cache_key;;
     if present then ret tt
     else
       (file_cache_setitem cache_key true;;
        if relevant
        then (print (">> Trigger: " +:+ str_event event);;
              run_tests)
        else ret tt))%py.

Definition on_created := _trigger.
Definition on_deleted := _trigger.
Definition on_modified := _trigger.
Definition on_moved := _trigger.

End Methods.

(** The effective path of an event as the specification words it: the
    destination path for a move, else the source path.  [_get_cache_key]
    is what the code uses. *)
Definition effective_path (event : FileSystemEvent) : string :=
  match dest_path event with
  | Some dest => dest
  | None => src_path event
  end.

(** A cache entry that a lookup at time [now] finds. *)
Definition live (now : Q) (key : string) (d : ExpiringDict) : bool :=
  match od_get key (items d) with
  | Some item => Qltb (now - snd item) (max_age d)
  | None => false
  end.

(** The cache is one that [clear_cache] made and [_trigger] filled. *)
Definition cache_ok (d : ExpiringDict) : Prop :=
  max_len d = FILE_CACHE_SIZE /\ max_age d = FILE_CACHE_AGE /\
  NoDup (map fst (items d)).

(** The state of a new handler in a process that has done nothing yet. *)
Definition new_world : World :=
  mkWorld false (mkExpiringDict FILE_CACHE_SIZE FILE_CACHE_AGE []) 0 [] [].

(** *** A stream of events as the observer delivers it *)

Section Events.
Variable clock : nat -> Q.
Variable os_system : list string -> string -> completion Z.
Variable str_event : FileSystemEvent -> string.

(** The observer calls the handler for one event after the other; an
    exception of one call does not stop the delivery of the next events. *)
Fixpoint run_events (evs : list FileSystemEvent) (w : World) : World :=
  match evs with
  | [] => w
  | ev :: evs' => run_events evs' (snd (_trigger clock os_system str_event ev w))
  end.
End Events.

(** *** Environments and inputs for concrete runs *)

(** A clock that advances a quarter of a second between two readings. *)
Definition quarter_clock (n : nat) : Q := inject_Z (Z.of_nat n) / 4.

(** A clock that advances two seconds between two readings. *)
Definition slow_clock (n : nat) : Q := inject_Z (2 * Z.of_nat n).

Definition system_ok (_ : list string) (_ : string) : completion Z := Returned 0%Z.

Definition system_raises (_ : list string) (_ : string) : completion Z :=
  Raised (Exception "Dummy exception").

Definition event_text (event : FileSystemEvent) : string :=
  "<event " +:+ src_path event +:+ ">".

End Handler.

(** ** The test-session reporter: [testmonitorplugin.py] *)

Module TestMonitorPlugin.

Definition VERDICT_MAP : gmap string string :=
  list_to_map
    [("passed", "pass"); ("failed", "fail"); ("skipped", "skipped");
     ("error", "error")].

(** What a collection report delivers: test items ([pytest.Item]) and other
    collection nodes. *)
Inductive Node : Type :=
  | Item (name : string)
  | Collector (name : string).

Record CollectReport : Type := mkCollectReport {
  result : list Node
}.

(** The fields of a test report that the plugin reads. *)
Record TestReport : Type := mkTestReport {
  fspath : string;
  nodeid : string;
  when : string;
  outcome : string;
  keywords : list string
}.

(** The messages of [purkinje_messages.message], with the fields the plugin
    gives them. *)
Inductive Event : Type :=
  | SessionStartedEvent (suite_name suite_hash : string) (tc_count : nat)
  | TestCaseFinishedEvent (name file verdict : string) (duration : Z)
                          (suite_hash : string)
  | SessionTerminatedEvent (suite_hash : string)
  | ConnectionTerminationEvent (suite_hash : string).

Inductive WebSocket : Type :=
  | Connection (url : string).

Inductive LogLine : Type :=
  | Printed (fmt : string) (args : list string)
  | LoggedException (e : exn).

(** The instance attributes. *)
Record Plugin : Type := mkPlugin {
  reports : list TestReport;
  _websocket_url : string;
  _websocket : option WebSocket;
  _test_cases : gmap string Q;
  _current_suite : option string;
  _start_message_sent : bool
}.

(** The process: the class attribute [TestMonitorPlugin.tc_count], the
    plugin instance in use, and the effects so far. *)
Record World : Type := mkWorld {
  tc_count : nat;
  self : Plugin;
  (** how many times [time.time()] has been read *)
  clock_reads : nat;
  (** the events handed to [send_event], oldest first *)
  emitted : list Event;
  (** the messages sent over the WebSocket, oldest first *)
  wire : list string;
  (** the lines written by [_log] and [logging.exception], oldest first *)
  log : list LogLine
}.

Definition set_tc_count (n : nat) (w : World) : World :=
  mkWorld n (self w) (clock_reads w) (emitted w) (wire w) (log w).

Definition set_self (p : Plugin) (w : World) : World :=
  mkWorld (tc_count w) p (clock_reads w) (emitted w) (wire w) (log w).

Definition set_websocket (ws : option WebSocket) (p : Plugin) : Plugin :=
  mkPlugin (reports p) (_websocket_url p) ws (_test_cases p)
           (_current_suite p) (_start_message_sent p).

Definition set_test_cases (m : gmap string Q) (p : Plugin) : Plugin :=
  mkPlugin (reports p) (_websocket_url p) (_websocket p) m
           (_current_suite p) (_start_message_sent p).

Definition set_current_suite (n : option string) (p : Plugin) : Plugin :=
  mkPlugin (reports p) (_websocket_url p) (_websocket p) (_test_cases p)
           n (_start_message_sent p).

Definition set_start_message_sent (b : bool) (p : Plugin) : Plugin :=
  mkPlugin (reports p) (_websocket_url p) (_websocket p) (_test_cases p)
           (_current_suite p) b.

Definition set_reports (l : list TestReport) (p : Plugin) : Plugin :=
  mkPlugin l (_websocket_url p) (_websocket p) (_test_cases p)
           (_current_suite p) (_start_message_sent p).

Definition modify_self (f : Plugin -> Plugin) : M World unit :=
  modify (fun w => set_self (f (self w)) w).

Definition str_exn (e : exn) : string :=
  match e with
  | KeyError key => "'" +:+ key +:+ "'"
  | ValueError msg => msg
  | Exception msg => msg
  end.

Definition dquote : string := String (Ascii.ascii_of_nat 34) "".

(** [_log]: the line goes to the log; how [%] renders it is not modelled. *)
Definition _log (fmt : string) (args : list string) : M World unit :=
  modify (fun w =>
    mkWorld (tc_count w) (self w) (clock_reads w) (emitted w) (wire w)
            (log w ++ [Printed ("** testmon: " +:+ fmt +:+ " **") args])).

Definition logging_exception (e : exn) : M World unit :=
  modify (fun w =>
    mkWorld (tc_count w) (self w) (clock_reads w) (emitted w) (wire w)
            (log w ++ [LoggedException e])).

Definition lift {S A} (r : completion A) : M S A := fun s => (r, s).

Section Methods.
(** The environment: the clock, the host name and the working directory,
    the digest, what connecting to a URL gives, how an event serializes,
    what sending a message does given the messages sent before, and the
    text of a keyword set, of an event's data and of a collection report. *)
Variable clock : nat -> Q.
Variable hostname : string.
Variable cwd : string.
Variable md5_hexdigest : string -> string.
Variable create_connection : string -> completion WebSocket.
Variable serialize : Event -> completion string.
Variable websocket_send : list string -> string -> completion unit.
Variable str_keywords : list string -> string.
Variable str_data : Event -> string.
Variable str_collectreport : CollectReport -> string.

Definition time_time : M World Q :=
  fun w =>
    (Returned (clock (clock_reads w)),
     mkWorld (tc_count w) (self w) (S (clock_reads w)) (emitted w) (wire w) (log w)).

Definition __init__ (websocket_url : string) : M World unit :=
  (modify (set_self (mkPlugin [] websocket_url None ∅ None false));;
   try_except
     (_log "Connecting to WebSocket %s" [websocket_url];;
      ws <- lift (create_connection websocket_url);;
      modify_self (set_websocket (Some ws)))
     (fun e =>
        match e with
        | ValueError _ =>
          _log ("Invalid WebSocket URL: " +:+ dquote +:+ "%s" +:+ dquote)
               [websocket_url]
        | _ =>
          _log "Error connecting to WebSocket at URL %s: %s"
               [websocket_url; str_exn e]
        end))%py.

Definition is_websocket_connected (w : World) : bool :=
  match _websocket (self w) with Some _ => true | None => false end.

Definition suite_name : string := hostname +:+ ": " +:+ cwd.

Definition suite_hash : string := md5_hexdigest suite_name.

(** [self._websocket.send(ser_event)] *)
Definition call_websocket_send (ser_event : string) : M World unit :=
  fun w =>
    match websocket_send (wire w) ser_event with
    | Returned _ =>
      (Returned tt,
       mkWorld (tc_count w) (self w) (clock_reads w) (emitted w)
               (wire w ++ [ser_event]) (log w))
    | Raised e => (Raised e, w)
    end.

Definition send_event_failed (event : Event) (ser_event : option string)
    (e : exn) : M World unit :=
  (logging_exception e;;
   _log ("Error while sending event " +:+ dquote +:+ "%s" +:+ dquote +:+ ": %s")
        [match ser_event with
         | Some s => if String.eqb s "" then str_data event else s
         | None => str_data event
         end;
         str_exn e])%py.

Definition send_event (event : Event) : M World unit :=
  (modify (fun w =>
     mkWorld (tc_count w) (self w) (clock_reads w) (emitted w ++ [event])
             (wire w) (log w));;
   match serialize event with
   | Raised e => send_event_failed event None e
   | Returned ser_event =>
     try_except
       (w <- get;;
        match _websocket (self w) with
        | Some _ => call_websocket_send ser_event
        | None => _log "purkinje server not available; event: %s" [ser_event]
        end)
       (send_event_failed event (Some ser_event))
   end)%py.

Definition pytest_sessionstart : M World unit :=
  _log "*** py.test session started ***" [].

Definition _send_start_event : M World unit :=
  (modify_self (set_current_suite (Some suite_name));;
   w <- get;;
   send_event (SessionStartedEvent suite_name suite_hash (tc_count w)))%py.

Definition pytest_sessionfinish : M World unit :=
  (_log "*** py.test session finished ***" [];;
   send_event (SessionTerminatedEvent suite_hash);;
   send_event (ConnectionTerminationEvent suite_hash))%py.

Definition node_name (n : Node) : string :=
  match n with Item name | Collector name => name end.

Definition pytest_collectstart (collector : Node) : M World unit :=
  _log "pytest_collectstart: %s" [node_name collector].

Definition _is_relevant_tc (tc : Node) : bool :=
  match tc with
  | Item _ => true
  | Collector _ => false
  end.

Definition pytest_collectreport (report : CollectReport) : M World unit :=
  (_log "pytest_collectreport: %s" [str_collectreport report];;
   let test_funcs := List.filter _is_relevant_tc (result report) in
   modify (fun w => set_tc_count (tc_count w + List.length test_funcs) w))%py.

(** The name under which a report's test case is shown. *)
Definition tc_name (report : TestReport) : string :=
  let tc_components := split (nodeid report) "::" in
  if (1 <? List.length tc_components)%nat
  then default "" (tc_components !! 1%nat)
  else if bool_decide ("pep8" ∈ keywords report)
       then "PEP8"
       else str_keywords (keywords report).

(** [VERDICT_MAP[outcome]] *)
Definition verdict_of (outcome : string) : M World string :=
  match VERDICT_MAP !! outcome with
  | Some verdict => ret verdict
  | None => raise (KeyError outcome)
  end.

(** The end of [pytest_runtest_logreport], once the duration is known. *)
Definition report_test_case (report : TestReport) (duration : Z) : M World unit :=
  (w <- get;;
   (if negb (_start_message_sent (self w))
    then (_send_start_event;;
          modify_self (set_start_message_sent true))
    else ret tt);;
   verdict <- verdict_of (outcome report);;
   send_event (TestCaseFinishedEvent (tc_name report) (fspath report) verdict
                                     duration suite_hash);;
   modify_self (fun p => set_reports (reports p ++ [report]) p))%py.

Definition pytest_runtest_logreport (report : TestReport) : M World unit :=
  (let rep_key := nodeid report in
   (if String.eqb (when report) "setup"
    then (now <- time_time;;
          modify_self (fun p => set_test_cases (<[rep_key := now]> (_test_cases p)) p))
    else ret tt);;
   if negb (String.eqb (when report) "call") &&
      negb (String.eqb (when report) "setup" &&
            String.eqb (outcome report) "skipped")
   then ret tt
   else
     if String.eqb (when report) "call"
     then
       w <- get;;
       match _test_cases (self w) !! rep_key with
       | None => _log ("Test case " +:+ tc_name report +:+ " not found") []
       | Some started =>
         now <- time_time;;
         report_test_case report (py_int ((now - started) * 1000))
       end
     else report_test_case report 0)%py.

(** *** A session as the framework drives it *)

(** The hook calls that the framework makes on a plugin instance between its
    construction and the end of the session. *)
Inductive HookCall : Type :=
  | SessionStart
  | CollectStart (collector : Node)
  | CollectReported (report : CollectReport)
  | RuntestLogreport (report : TestReport).

Definition call_hook (h : HookCall) : M World unit :=
  match h with
  | SessionStart => pytest_sessionstart
  | CollectStart collector => pytest_collectstart collector
  | CollectReported report => pytest_collectreport report
  | RuntestLogreport report => pytest_runtest_logreport report
  end.

(** The hook calls are made in order.  A hook that raises keeps the state it
    reached; the calls after it are still made here, so that a framework that
    stops at the first raising hook is the case of a shorter list. *)
Fixpoint run_hooks (hs : list HookCall) (w : World) : World :=
  match hs with
  | [] => w
  | h :: hs' => run_hooks hs' (snd (call_hook h w))
  end.

(** One session: a new plugin instance, the hook calls, the session finish. *)
Definition run_session (websocket_url : string) (hs : list HookCall)
    (w : World) : World :=
  snd (pytest_sessionfinish (run_hooks hs (snd (__init__ websocket_url w)))).

(** The events that one hook call hands to [send_event]. *)
Definition events_of_call (h : HookCall) (w : World) : list Event :=
  drop (List.length (emitted w)) (emitted (snd (call_hook h w))).

Definition reports_on (id : string) (h : HookCall) : bool :=
  match h with
  | RuntestLogreport report => String.eqb (nodeid report) id
  | _ => false
  end.

(** The events emitted by the test-result hook calls for the node [id]. *)
Fixpoint events_for (id : string) (hs : list HookCall) (w : World) : list Event :=
  match hs with
  | [] => []
  | h :: hs' =>
    ((if reports_on id h then events_of_call h w else []) ++
     events_for id hs' (snd (call_hook h w)))
  end.

End Methods.

Definition is_test_case_finished (e : Event) : bool :=
  match e with TestCaseFinishedEvent _ _ _ _ _ => true | _ => false end.

(** A process in which no plugin code has run yet: the class attribute has
    its initial value; the instance is the one [__init__] starts from. *)
Definition new_process : World :=
  mkWorld 0 (mkPlugin [] "" None ∅ None false) 0 [] [] [].

(** *** Environments and inputs for concrete runs *)

Definition quarter_clock (n : nat) : Q := inject_Z (Z.of_nat n) / 4.

Definition fixed_digest (s : string) : string := "md5(" +:+ s +:+ ")".

Definition refused (url : string) : completion WebSocket :=
  Raised (Exception "connection refused").

Definition event_kind (e : Event) : completion string :=
  Returned
    match e with
    | SessionStartedEvent _ _ _ => "session_started"
    | TestCaseFinishedEvent _ _ _ _ _ => "tc_finished"
    | SessionTerminatedEvent _ => "session_terminated"
    | ConnectionTerminationEvent _ => "terminate_connection"
    end.

Definition delivered (_ : list string) (_ : string) : completion unit :=
  Returned tt.

Definition keywords_text (l : list string) : string := String.concat ", " l.

Definition data_text (_ : Event) : string := "<data>".

Definition collectreport_text (_ : CollectReport) : string := "<CollectReport>".

Definition setup_A := mkTestReport "t.py" "t.py::A" "setup" "passed" [].
Definition call_A := mkTestReport "t.py" "t.py::A" "call" "passed" [].
Definition teardown_A := mkTestReport "t.py" "t.py::A" "teardown" "passed" [].
Definition setup_B := mkTestReport "t.py" "t.py::B" "setup" "passed" [].
Definition call_B := mkTestReport "t.py" "t.py::B" "call" "failed" [].
Definition skip_C := mkTestReport "t.py" "t.py::C" "setup" "skipped" [].
Definition setup_D := mkTestReport "t.py" "t.py::D" "setup" "passed" [].
Definition call_D := mkTestReport "t.py" "t.py::D" "call" "xfailed" [].

Definition session (hs : list HookCall) : World :=
  run_session quarter_clock "host" "/work" fixed_digest refused event_kind
    delivered keywords_text data_text collectreport_text
    "ws://localhost:5000/event" hs new_process.

Definition three_items : CollectReport :=
  mkCollectReport [Collector "a_test.py"; Item "test_1"; Item "test_2"; Item "test_3"].

Definition five_items : CollectReport :=
  mkCollectReport [Collector "b_test.py"; Item "test_4"; Item "test_5";
                   Item "test_6"; Item "test_7"; Item "test_8"].

(** The state in which the setup of the test case D has been reported. *)
Definition after_setup_D : World :=
  snd (pytest_runtest_logreport quarter_clock "host" "/work" fixed_digest
         event_kind delivered keywords_text data_text setup_D
         (snd (__init__ refused "ws://localhost:5000/event" new_process))).

(** What a case event says about its test case. *)
Definition case_of_event (e : Event) : option (string * string * string) :=
  match e with
  | TestCaseFinishedEvent name file verdict _ _ => Some (name, file, verdict)
  | _ => None
  end.

Definition duration_of_event (e : Event) : Z :=
  match e with
  | TestCaseFinishedEvent _ _ _ duration _ => duration
  | _ => 0
  end.

(** What the list of reports says about a reported case. *)
Definition case_of_report (str_keywords : list string -> string)
    (r : TestReport) : string * string * string :=
  (tc_name str_keywords r, fspath r, default "" (VERDICT_MAP !! outcome r)).

(** The number of test items that a hook call delivers for counting. *)
Definition items_collected (h : HookCall) : nat :=
  match h with
  | CollectReported report =>
    List.length (List.filter _is_relevant_tc (result report))
  | _ => 0
  end.

(** A server that accepts the connection. *)
Definition accepted (url : string) : completion WebSocket :=
  Returned (Connection url).

(** A connection that breaks after the first message. *)
Definition breaks_after_one (sent : list string) (_ : string) : completion unit :=
  match sent with
  | [] => Returned tt
  | _ => Raised (Exception "connection lost")
  end.

Definition kind_of (e : Event) : string :=
  match e with
  | SessionStartedEvent _ _ _ => "session_started"
  | TestCaseFinishedEvent _ _ _ _ _ => "tc_finished"
  | SessionTerminatedEvent _ => "session_terminated"
  | ConnectionTerminationEvent _ => "terminate_connection"
  end.

Definition connected_session (hs : list HookCall) : World :=
  run_session quarter_clock "host" "/work" fixed_digest accepted event_kind
    delivered keywords_text data_text collectreport_text
    "ws://localhost:5000/event" hs new_process.

(** A clock that is set back between the setup and the call of a case gives
    a negative duration: the plugin reports it as it is. *)
Definition clock_set_back (n : nat) : Q :=
  match n with
  | 0 => 10
  | _ => 7
  end.

Definition method_report : TestReport :=
  mkTestReport "tests/a_test.py" "tests/a_test.py::TestThing::test_one" "call"
               "passed" [].

End TestMonitorPlugin.

(** ** Equations of the monad *)

Section MonadFacts.
Context {S A B : Type}.
Implicit Types (s : S) (k : A -> M S B).

Lemma bind_ret (a : A) k s : bind (ret a) k s = k a s.
Proof. reflexivity. Qed.

Lemma bind_get (k' : S -> M S B) s : bind get k' s = k' s s.
Proof. reflexivity. Qed.

Lemma bind_modify (f : S -> S) (k' : unit -> M S B) s :
  bind (modify f) k' s = k' tt (f s).
Proof. reflexivity. Qed.

Lemma bind_raise (e : exn) k s : bind (raise e) k s = (Raised e, s).
Proof. reflexivity. Qed.

Lemma bind_returned (m : M S A) k s a s' :
  m s = (Returned a, s') -> bind m k s = k a s'.
Proof. intros H. unfold bind. by rewrite H. Qed.

Lemma bind_raised (m : M S A) k s e s' :
  m s = (Raised e, s') -> bind m k s = (Raised e, s').
Proof. intros H. unfold bind. by rewrite H. Qed.
End MonadFacts.

(** ** The built-ins on examples *)

Example endswith_py : endswith "/a/b/c/myfile.py" ".py" = true.
Proof. reflexivity. Qed.

Example endswith_txt : endswith "/a/b/c/myfile.txt" ".py" = false.
Proof. reflexivity. Qed.

Example endswith_short : endswith "py" ".py" = false.
Proof. reflexivity. Qed.

Example split_nodeid :
  split "tests/a_test.py::test_one" "::" = ["tests/a_test.py"; "test_one"].
Proof. reflexivity. Qed.

Example split_plain : split "setup.py" "::" = ["setup.py"].
Proof. reflexivity. Qed.

Example split_trailing : split "a::" "::" = ["a"; ""].
Proof. reflexivity. Qed.

Example py_int_neg : py_int (-3 # 2) = (-1)%Z.
Proof. reflexivity. Qed.

(** ** Equations of the built-ins *)

Section StringFacts.
Implicit Types (s p suf : string) (c : Ascii.ascii).

Lemma append_cons c s p : String c s +:+ p = String c (s +:+ p).
Proof. reflexivity. Qed.

Lemma append_length s p :
  String.length (s +:+ p) = String.length s + String.length p.
Proof. induction s as [|c s IH]; [done |]. rewrite append_cons. simpl. by rewrite IH. Qed.

Lemma substring_all s : String.substring 0 (String.length s) s = s.
Proof. induction s as [|c s IH]; [done |]. simpl. by rewrite IH. Qed.

Lemma substring_append_r p suf :
  String.substring (String.length p) (String.length suf) (p +:+ suf) = suf.
Proof.
  induction p as [|c p IH]; [apply substring_all |].
  rewrite append_cons. simpl. apply IH.
Qed.

Lemma substring_split s n :
  n <= String.length s ->
  s = String.substring 0 n s +:+ String.substring n (String.length s - n) s.
Proof.
  revert s. induction n as [|n IH]; intros s Hn.
  - rewrite Nat.sub_0_r, substring_all. by destruct s.
  - destruct s as [|c s]; simpl in Hn; [lia |].
    simpl. rewrite append_cons. f_equal. apply IH. lia.
Qed.

(** [s.endswith(suf)] holds exactly for the strings that are some string
    followed by [suf]. *)
Lemma endswith_iff s suf : endswith s suf = true <-> exists p, s = p +:+ suf.
Proof.
  unfold endswith. rewrite andb_true_iff, Nat.leb_le, String.eqb_eq. split.
  - intros [Hlen Hsub].
    exists (String.substring 0 (String.length s - String.length suf) s).
    pose proof (substring_split s (String.length s - String.length suf)) as H.
    replace (String.length s - (String.length s - String.length suf))
      with (String.length suf) in H by lia.
    rewrite Hsub in H. apply H. lia.
  - intros [p ->]. rewrite append_length. split; [lia |].
    replace (String.length p + String.length suf - String.length suf)
      with (String.length p) by lia.
    apply substring_append_r.
Qed.
Lemma append_nil_r s : s +:+ "" = s.
Proof. induction s as [|c s IH]; [done |]. by rewrite append_cons, IH. Qed.

Lemma append_snoc s c p : (s +:+ String c "") +:+ p = s +:+ String c p.
Proof. induction s as [|a s IH]; [done |]. by rewrite !append_cons, IH. Qed.

Lemma prefix_sep_other c s :
  Ascii.eqb c ":"%char = false -> String.prefix "::" (String c s) = false.
Proof.
  intros Hc. cbn [String.prefix].
  destruct (Ascii.ascii_dec ":"%char c) as [<-|]; [| done].
  by rewrite Ascii.eqb_refl in Hc.
Qed.

Lemma prefix_sep_here rest :
  String.prefix "::" (String ":" (String ":" rest)) = true.
Proof.
  cbn [String.prefix].
  destruct (Ascii.ascii_dec ":"%char ":"%char) as [_|]; [| done].
  by destruct rest.
Qed.

(** A string without a colon is one component. *)
Lemma split_go_plain s cur :
  contains_char ":"%char s = false -> split_go "::" s cur 0 = [cur +:+ s].
Proof.
  revert cur. induction s as [|c s IH]; intros cur Hs.
  - by rewrite append_nil_r.
  - simpl in Hs. apply orb_false_iff in Hs as [Hc Hs].
    cbn [split_go]. rewrite prefix_sep_other by done.
    rewrite IH by done. by rewrite append_snoc.
Qed.

(** A string without a colon, followed by the separator, is the first
    component; the rest is split on its own. *)
Lemma split_go_sep s rest cur :
  contains_char ":"%char s = false ->
  split_go "::" (s +:+ "::" +:+ rest) cur 0 =
  (cur +:+ s) :: split_go "::" rest "" 0.
Proof.
  revert cur. induction s as [|c s IH]; intros cur Hs.
  - rewrite append_nil_r.
    change ("" +:+ "::" +:+ rest) with (String ":" (String ":" rest)).
    cbn [split_go]. by rewrite prefix_sep_here.
  - simpl in Hs. apply orb_false_iff in Hs as [Hc Hs].
    rewrite append_cons. cbn [split_go]. rewrite prefix_sep_other by done.
    rewrite IH by done. by rewrite append_snoc.
Qed.

Lemma py_int_nonneg x : (0 <= x)%Q -> (0 <= py_int x)%Z.
Proof.
  unfold py_int, Qle. simpl. intros Hx.
  apply Z.quot_pos; lia.
Qed.
End StringFacts.

(** ** Properties of the change watcher *)

Module HandlerFacts.
Import Handler.

Ltac run_monad :=
  unfold bind, ret, get, modify, raise, try_finally, try_except; simpl.

Section OrderedDictFacts.
Context {V : Type}.
Implicit Types (l : list (string * V)) (k : string) (v : V).

Lemma od_get_set_eq k v l : od_get k (od_set k v l) = Some v.
Proof.
  induction l as [|[k' v'] l IH]; simpl.
  - by rewrite String.eqb_refl.
  - destruct (String.eqb k' k) eqn:E; simpl; rewrite E; [done | apply IH].
Qed.

Lemma od_get_del_eq k l : od_get k (od_del k l) = None.
Proof.
  induction l as [|[k' v'] l IH]; simpl; [done |].
  destruct (String.eqb k' k) eqn:E; simpl; [apply IH |].
  by rewrite E.
Qed.

Lemma od_get_None_keys k l : od_get k l = None <-> k ∉ (map fst l : list string).
Proof.
  induction l as [|[k' v'] l IH]; simpl.
  - split; [intros _; apply not_elem_of_nil | done].
  - rewrite not_elem_of_cons.
    destruct (String.eqb_spec k' k) as [->|Hne]; split.
    + done.
    + intros [? _]; done.
    + intros H; split; [congruence | by apply IH].
    + intros [_ H]; by apply IH.
Qed.

Lemma od_set_keys_absent k v l :
  od_get k l = None -> map fst (od_set k v l) = (map fst l ++ [k]).
Proof.
  induction l as [|[k' v'] l IH]; simpl; [done |].
  destruct (String.eqb k' k) eqn:E; [done |].
  intros H. simpl. by rewrite IH.
Qed.

Lemma od_del_keys_subset k k' l :
  k' ∈ (map fst (od_del k l) : list string) -> k' ∈ (map fst l : list string).
Proof.
  induction l as [|[k0 v0] l IH]; simpl; [done |].
  destruct (String.eqb k0 k); simpl; rewrite !elem_of_cons; intuition.
Qed.

Lemma od_del_NoDup k l : NoDup (map fst l) -> NoDup (map fst (od_del k l)).
Proof.
  induction l as [|[k0 v0] l IH]; simpl; [done |].
  rewrite NoDup_cons. intros [Hk Hl].
  destruct (String.eqb k0 k); simpl; [by apply IH |].
  apply NoDup_cons; split; [| by apply IH].
  intros Hin. by apply Hk, (od_del_keys_subset k).
Qed.

Lemma od_popfirst_NoDup l : NoDup (map fst l) -> NoDup (map fst (od_popfirst l)).
Proof.
  destruct l as [|[k0 v0] l]; simpl; [done |].
  rewrite NoDup_cons. by intros [_ ?].
Qed.

Lemma od_popfirst_get_None k l :
  od_get k l = None -> od_get k (od_popfirst l) = None.
Proof.
  destruct l as [|[k0 v0] l]; simpl; [done |].
  by destruct (String.eqb k0 k).
Qed.

Lemma od_set_NoDup_absent k v l :
  od_get k l = None -> NoDup (map fst l) -> NoDup (map fst (od_set k v l)).
Proof.
  intros Hk Hl. rewrite od_set_keys_absent by done.
  apply NoDup_app; split_and!; [done | | apply NoDup_singleton].
  intros x Hx. rewrite list_elem_of_singleton. intros ->.
  by apply od_get_None_keys in Hk.
Qed.
End OrderedDictFacts.

Lemma Qltb_true x y : Qltb x y = true <-> (x < y)%Q.
Proof.
  unfold Qltb. rewrite negb_true_iff, <- not_true_iff_false, Qle_bool_iff.
  split; [apply Qnot_le_lt | apply Qlt_not_le].
Qed.

Lemma Qltb_false x y : Qltb x y = false <-> (y <= x)%Q.
Proof. unfold Qltb. by rewrite negb_false_iff, Qle_bool_iff. Qed.

Section Trigger.
Variable clock : nat -> Q.
Variable os_system : list string -> string -> completion Z.
Variable str_event : FileSystemEvent -> string.

Local Abbreviation _trigger := (_trigger clock os_system str_event).
Local Abbreviation run_tests := (run_tests os_system).

(** What [run_tests] raises or returns is what [os.system] does. *)
Definition run_outcome (w : World) : completion unit :=
  match os_system (os_system_calls w) "py.test" with
  | Returned _ => Returned tt
  | Raised e => Raised e
  end.

Lemma run_tests_eq w :
  run_tests w =
  (run_outcome w,
   mkWorld false (_file_cache w) (clock_reads w)
           (os_system_calls w ++ ["py.test"])
           (stdout w ++ ["Running tests"])).
Proof.
  unfold Handler.run_tests, run_outcome, print, call_os_system. run_monad.
  by destruct (os_system _ _).
Qed.

(** The state after [_trigger] on a key that the lookup does not find
    live: the stale entry is gone, the oldest entry is dropped when the
    cache is full, and the key is stored with the next clock reading. *)
Definition items_after_miss (key : string) (w : World) : list (string * (bool * Q)) :=
  match od_get key (items (_file_cache w)) with
  | None => items (_file_cache w)
  | Some _ => od_del key (items (_file_cache w))
  end.

Definition reads_after_miss (key : string) (w : World) : nat :=
  match od_get key (items (_file_cache w)) with
  | None => clock_reads w
  | Some _ => S (clock_reads w)
  end.

Definition items_after_set (key : string) (w : World) : list (string * (bool * Q)) :=
  let l := items_after_miss key w in
  od_set key (true, clock (reads_after_miss key w))
    (if (N.of_nat (List.length l) =? max_len (_file_cache w))%N
     then od_popfirst l else l).

Definition world_after_set (key : string) (w : World) : World :=
  mkWorld (_tests_running w)
    (mkExpiringDict (max_len (_file_cache w)) (max_age (_file_cache w))
       (items_after_set key w))
    (S (reads_after_miss key w)) (os_system_calls w) (stdout w).

Lemma trigger_running ev w :
  _tests_running w = true -> _trigger ev w = (Returned tt, w).
Proof. intros H. unfold Handler._trigger. run_monad. by rewrite H. Qed.

Lemma trigger_live ev w :
  _tests_running w = false ->
  live (clock (clock_reads w)) (_get_cache_key ev) (_file_cache w) = true ->
  _trigger ev w =
  (Returned tt,
   mkWorld false (_file_cache w) (S (clock_reads w)) (os_system_calls w) (stdout w)).
Proof.
  intros Hrun Hlive. unfold live in Hlive.
  unfold Handler._trigger, file_cache_contains, time_time. run_monad.
  rewrite Hrun.
  destruct (od_get _ _) as [item|] eqn:Hget; [| done]. simpl.
  by rewrite Hlive, Hrun.
Qed.

Lemma trigger_miss ev w :
  _tests_running w = false ->
  live (clock (clock_reads w)) (_get_cache_key ev) (_file_cache w) = false ->
  _trigger ev w =
  if _is_relevant ev
  then run_tests
         (mkWorld false (_file_cache (world_after_set (_get_cache_key ev) w))
            (clock_reads (world_after_set (_get_cache_key ev) w))
            (os_system_calls w)
            (stdout w ++ [">> Trigger: " +:+ str_event ev]))
  else (Returned tt, world_after_set (_get_cache_key ev) w).
Proof.
  intros Hrun Hlive. unfold live in Hlive.
  unfold Handler._trigger, file_cache_contains, file_cache_setitem, time_time.
  unfold world_after_set, items_after_set, items_after_miss, reads_after_miss.
  run_monad. rewrite Hrun.
  destruct (od_get _ _) as [item|] eqn:Hget; simpl.
  - rewrite Hlive. simpl.
    destruct (N.eqb _ _); simpl; destruct (_is_relevant ev); simpl;
      try rewrite Hrun; try done.
  - destruct (N.eqb _ _); simpl; destruct (_is_relevant ev); simpl;
      try rewrite Hrun; try done.
Qed.

Lemma items_after_miss_get key w : od_get key (items_after_miss key w) = None.
Proof.
  unfold items_after_miss.
  destruct (od_get key (items (_file_cache w))) eqn:E; [apply od_get_del_eq | done].
Qed.

Lemma world_after_set_get key w :
  od_get key (items (_file_cache (world_after_set key w))) =
  Some (true, clock (reads_after_miss key w)).
Proof. simpl. unfold items_after_set. apply od_get_set_eq. Qed.

Lemma world_after_set_ok key w :
  cache_ok (_file_cache w) -> cache_ok (_file_cache (world_after_set key w)).
Proof.
  intros (Hlen & Hage & Hnd). repeat split; simpl; try done.
  unfold items_after_set.
  assert (NoDup (map fst (items_after_miss key w))) as Hnd'.
  { unfold items_after_miss. destruct (od_get _ _); [by apply od_del_NoDup | done]. }
  pose proof (items_after_miss_get key w) as Hget.
  apply od_set_NoDup_absent; destruct (N.eqb _ _);
    auto using od_popfirst_NoDup, od_popfirst_get_None.
Qed.

(** [cache_ok] is an invariant of [_trigger]. *)
Lemma trigger_cache_ok ev w :
  cache_ok (_file_cache w) -> cache_ok (_file_cache (snd (_trigger ev w))).
Proof.
  intros Hok. destruct (_tests_running w) eqn:Hrun.
  { by rewrite trigger_running. }
  destruct (live (clock (clock_reads w)) (_get_cache_key ev) (_file_cache w)) eqn:Hl.
  { by rewrite trigger_live. }
  rewrite trigger_miss by done.
  destruct (_is_relevant ev); [rewrite run_tests_eq |]; simpl;
    by apply (world_after_set_ok (_get_cache_key ev) w).
Qed.

End Trigger.

(** An event is relevant when its cache key or its source path ends in
    [.py]; the two are the same path unless the event is a move. *)
Lemma is_relevant_eq ev :
  _is_relevant ev =
  endswith (_get_cache_key ev) ".py" || endswith (src_path ev) ".py".
Proof.
  unfold _is_relevant, _filter.
  destruct ev as [src|src|src|src dest|src|src|src|src dest]; simpl;
    try (by destruct (endswith src ".py")).
  by destruct (endswith dest ".py"), (endswith src ".py").
Qed.

Lemma new_world_ok : cache_ok (_file_cache new_world).
Proof. repeat split. constructor. Defined.

Example two_saves_one_run :
  os_system_calls
    (snd (_trigger quarter_clock system_ok event_text (FileModifiedEvent "m.py")
       (snd (_trigger quarter_clock system_ok event_text (FileCreatedEvent "m.py")
          new_world)))) = ["py.test"].
Proof. reflexivity. Qed.

Example late_save_runs_again :
  os_system_calls
    (snd (_trigger slow_clock system_ok event_text (FileModifiedEvent "m.py")
       (snd (_trigger slow_clock system_ok event_text (FileModifiedEvent "m.py")
          new_world)))) = ["py.test"; "py.test"].
Proof. reflexivity. Qed.

(** C3: while the running flag is true, [_trigger] returns at once for any
    event: the whole state, the debounce cache and the list of [os.system]
    calls included, is left as it was. *)
Theorem trigger_ignored_while_running clock os_system str_event ev w :
  _tests_running w = true ->
  _trigger clock os_system str_event ev w = (Returned tt, w).
Proof. apply trigger_running. Qed.

Lemma trigger_ignored_while_running_witness :
  let w := mkWorld true (mkExpiringDict FILE_CACHE_SIZE FILE_CACHE_AGE []) 0 [] [] in
  _tests_running w = true /\
  _trigger quarter_clock system_ok event_text (FileCreatedEvent "m.py") w =
  (Returned tt, w).
Proof.
  split; [reflexivity |].
  apply (trigger_ignored_while_running quarter_clock system_ok event_text).
  reflexivity.
Defined.

(** C4: [run_tests] leaves the running flag false, whether [os.system]
    returns or raises; it calls [os.system] once; when [os.system] raises,
    the caller gets that exception, and when it returns, [run_tests]
    returns. *)
Theorem run_tests_clears_flag os_system w :
  _tests_running (snd (run_tests os_system w)) = false /\
  os_system_calls (snd (run_tests os_system w)) = (os_system_calls w ++ ["py.test"]) /\
  fst (run_tests os_system w) =
    match os_system (os_system_calls w) "py.test" with
    | Returned _ => Returned tt
    | Raised e => Raised e
    end.
Proof. by rewrite run_tests_eq. Qed.

Example run_tests_with_error :
  run_tests system_raises new_world =
  (Raised (Exception "Dummy exception"),
   mkWorld false (_file_cache new_world) 0 ["py.test"] ["Running tests"]).
Proof. reflexivity. Qed.

(** C6, as the code has it: a moved-file event is relevant exactly when its
    destination path or its source path ends in [.py], so a file moved from
    a [.py] path to another kind of path is relevant; of a moved-directory
    event, which is not a [FileMovedEvent], the destination path is not
    looked at, and it is relevant exactly when its source path ends in
    [.py]. *)
Theorem is_relevant_moved src dest :
  _is_relevant (FileMovedEvent src dest) = endswith dest ".py" || endswith src ".py" /\
  (endswith src ".py" = true -> endswith dest ".py" = false ->
   _is_relevant (FileMovedEvent src dest) = true) /\
  _is_relevant (DirMovedEvent src dest) = endswith src ".py".
Proof.
  unfold _is_relevant, _filter. simpl.
  destruct (endswith dest ".py"), (endswith src ".py"); simpl; split_and!; congruence.
Qed.

(** C6 as stated fails: this event is a move, its destination path ends in
    [.py], and it is not relevant, because the handler looks at the
    destination path of a [FileMovedEvent] only. *)
Lemma is_relevant_dir_moved_counterexample :
  let ev := DirMovedEvent "/p/a.txt" "/p/b.py" in
  dest_path ev = Some "/p/b.py" /\
  endswith "/p/b.py" ".py" = true /\
  endswith (src_path ev) ".py" = false /\
  _is_relevant ev = false.
Proof. repeat split. Qed.

Lemma is_relevant_moved_witness :
  endswith "/p/mod.py" ".py" = true /\ endswith "/p/mod.txt" ".py" = false /\
  _is_relevant (FileMovedEvent "/p/mod.py" "/p/mod.txt") = true.
Proof.
  split; [reflexivity |]. split; [reflexivity |].
  apply (proj1 (proj2 (is_relevant_moved "/p/mod.py" "/p/mod.txt"))); reflexivity.
Defined.

Example moved_away_from_py :
  _is_relevant (FileMovedEvent "/p/mod.py" "/p/mod.txt") = true.
Proof. reflexivity. Qed.

(** C2: a relevant event that arrives while the running flag is false and
    whose cache key the cache does not hold live causes exactly one call of
    [os.system] (one test run) and stores the key with the time [t_set];
    the next event with the same key causes no call when it is looked up
    less than [FILE_CACHE_AGE] (one second) after [t_set], and the same
    event causes one more call when it is looked up later than that. *)
Theorem trigger_debounce clock os_system str_event ev w :
  _tests_running w = false ->
  cache_ok (_file_cache w) ->
  _is_relevant ev = true ->
  live (clock (clock_reads w)) (_get_cache_key ev) (_file_cache w) = false ->
  let w1 := snd (_trigger clock os_system str_event ev w) in
  os_system_calls w1 = (os_system_calls w ++ ["py.test"]) /\
  exists t_set,
    od_get (_get_cache_key ev) (items (_file_cache w1)) = Some (true, t_set) /\
    (forall ev2,
       _get_cache_key ev2 = _get_cache_key ev ->
       (clock (clock_reads w1) - t_set < FILE_CACHE_AGE)%Q ->
       os_system_calls (snd (_trigger clock os_system str_event ev2 w1)) =
       os_system_calls w1) /\
    ((FILE_CACHE_AGE <= clock (clock_reads w1) - t_set)%Q ->
     os_system_calls (snd (_trigger clock os_system str_event ev w1)) =
     (os_system_calls w1 ++ ["py.test"])).
Proof.
  intros Hrun (Hlen & Hage & Hnd) Hrel Hmiss w1.
  assert (w1 = mkWorld false
                 (_file_cache (world_after_set clock (_get_cache_key ev) w))
                 (clock_reads (world_after_set clock (_get_cache_key ev) w))
                 (os_system_calls w ++ ["py.test"])
                 ((stdout w ++ [">> Trigger: " +:+ str_event ev]) ++ ["Running tests"]))
    as Hw1.
  { unfold w1. rewrite trigger_miss by done. rewrite Hrel. by rewrite run_tests_eq. }
  clearbody w1. subst w1.
  split; [done |].
  exists (clock (reads_after_miss (_get_cache_key ev) w)).
  split; [apply world_after_set_get |]. split.
  - intros ev2 Hkey Hin.
    rewrite trigger_live; [done | done |].
    unfold live. rewrite Hkey. cbn [_file_cache].
    rewrite world_after_set_get. simpl. rewrite Hage. by apply Qltb_true.
  - intros Hout.
    rewrite trigger_miss; [| done |].
    + rewrite Hrel. by rewrite run_tests_eq.
    + unfold live. cbn [_file_cache].
      rewrite world_after_set_get. simpl. rewrite Hage. by apply Qltb_false.
Qed.

Lemma trigger_debounce_witness :
  let ev := FileModifiedEvent "/p/mod.py" in
  (_tests_running new_world = false /\
   cache_ok (_file_cache new_world) /\
   _is_relevant ev = true /\
   live (quarter_clock (clock_reads new_world)) (_get_cache_key ev)
        (_file_cache new_world) = false) /\
  os_system_calls (snd (_trigger quarter_clock system_ok event_text ev new_world)) =
  ["py.test"].
Proof.
  intros ev.
  split; [split_and!; [reflexivity | apply new_world_ok | reflexivity | reflexivity] |].
  refine (proj1 (trigger_debounce quarter_clock system_ok event_text ev new_world
                   _ new_world_ok _ _)); reflexivity.
Defined.

(** C5, as the code has it: the cache key of an event is its effective path
    (the destination path for a move, else the source path), except for
    the events of a directory, a moved directory included, whose cache key
    is the source path.  An event of which neither the cache key nor the
    source path ends in [.py], arriving while the running flag is false,
    causes no call of [os.system]; after it the cache holds its cache key,
    once; and the same event again, looked up less than [FILE_CACHE_AGE]
    after the time stored with the key, causes no call and leaves the cache
    as it is. *)
Theorem trigger_irrelevant clock os_system str_event ev w :
  _tests_running w = false ->
  cache_ok (_file_cache w) ->
  endswith (_get_cache_key ev) ".py" = false ->
  endswith (src_path ev) ".py" = false ->
  _get_cache_key ev =
    (if is_directory ev then src_path ev else effective_path ev) /\
  let w1 := snd (_trigger clock os_system str_event ev w) in
  os_system_calls w1 = os_system_calls w /\
  NoDup (map fst (items (_file_cache w1))) /\
  exists item,
    od_get (_get_cache_key ev) (items (_file_cache w1)) = Some item /\
    ((clock (clock_reads w1) - snd item < FILE_CACHE_AGE)%Q ->
     let w2 := snd (_trigger clock os_system str_event ev w1) in
     os_system_calls w2 = os_system_calls w /\ _file_cache w2 = _file_cache w1).
Proof.
  intros Hrun Hok Hkey Hsrc. split; [by destruct ev |]. intros w1.
  assert (_is_relevant ev = false) as Hrel.
  { by rewrite is_relevant_eq, Hkey, Hsrc. }
  pose proof (trigger_cache_ok clock os_system str_event ev w Hok) as Hok1.
  fold w1 in Hok1.
  assert (_tests_running w1 = false /\ os_system_calls w1 = os_system_calls w /\
          exists item, od_get (_get_cache_key ev) (items (_file_cache w1)) = Some item)
    as (Hrun1 & Hcalls & item & Hitem).
  { unfold w1.
    destruct (live (clock (clock_reads w)) (_get_cache_key ev) (_file_cache w)) eqn:Hl.
    - rewrite trigger_live by done. simpl. split_and!; [done | done |].
      unfold live in Hl. destruct (od_get _ _) as [item|]; [by exists item | done].
    - rewrite trigger_miss by done. rewrite Hrel.
      split_and!; [done | done |]. eexists. apply world_after_set_get. }
  clearbody w1.
  split; [done |]. split; [apply Hok1 |].
  exists item. split; [done |].
  intros Hin w2. unfold w2.
  rewrite trigger_live; [by rewrite Hcalls | done |].
  unfold live. rewrite Hitem.
  destruct Hok1 as (_ & -> & _). by apply Qltb_true.
Qed.

Lemma trigger_irrelevant_witness :
  let ev := FileModifiedEvent "/p/notes.txt" in
  (_tests_running new_world = false /\
   cache_ok (_file_cache new_world) /\
   endswith (_get_cache_key ev) ".py" = false /\
   endswith (src_path ev) ".py" = false) /\
  os_system_calls (snd (_trigger quarter_clock system_ok event_text ev new_world)) = [].
Proof.
  intros ev.
  split; [split_and!; [reflexivity | apply new_world_ok | reflexivity | reflexivity] |].
  refine (proj1 (proj2 (trigger_irrelevant quarter_clock system_ok event_text ev
                          new_world _ new_world_ok _ _))); reflexivity.
Defined.

(** C5 as stated fails, twice.  The effective path of the moved-file event
    [ev] does not end in [.py], the running flag is false, and yet the
    tests are run, because the source path ends in [.py].  The effective
    path of the moved-directory event [dir] does not end in [.py] either,
    and after the event the cache holds the source path of [dir], not its
    effective path. *)
Lemma trigger_irrelevant_path_counterexample :
  let ev := FileMovedEvent "/p/mod.py" "/p/mod.txt" in
  let dir := DirMovedEvent "/p/pkg" "/p/lib" in
  let after_dir := snd (_trigger quarter_clock system_ok event_text dir new_world) in
  (_tests_running new_world = false /\
   effective_path ev = _get_cache_key ev /\
   endswith (_get_cache_key ev) ".py" = false /\
   os_system_calls new_world = [] /\
   os_system_calls (snd (_trigger quarter_clock system_ok event_text ev new_world)) =
   ["py.test"]) /\
  (effective_path dir = "/p/lib" /\
   endswith (effective_path dir) ".py" = false /\
   od_get (effective_path dir) (items (_file_cache after_dir)) = None /\
   od_get (src_path dir) (items (_file_cache after_dir)) =
   Some (true, quarter_clock 0)).
Proof. repeat split. Qed.

(** *** Further properties of the change watcher *)

Section Streams.
Variable clock : nat -> Q.
Variable os_system : list string -> string -> completion Z.
Variable str_event : FileSystemEvent -> string.

Local Abbreviation _trigger := (_trigger clock os_system str_event).
Local Abbreviation run_events := (run_events clock os_system str_event).

(** Whether [_trigger] goes on to run the tests for an event. *)
Definition runs (ev : FileSystemEvent) (w : World) : bool :=
  negb (_tests_running w) && _is_relevant ev &&
  negb (live (clock (clock_reads w)) (_get_cache_key ev) (_file_cache w)).

Lemma trigger_calls ev w :
  os_system_calls (snd (_trigger ev w)) =
  os_system_calls w ++ (if runs ev w then ["py.test"] else []).
Proof.
  unfold runs. destruct (_tests_running w) eqn:Hrun; simpl.
  { rewrite trigger_running by done. by rewrite app_nil_r. }
  destruct (live _ _ _) eqn:Hlive.
  { rewrite trigger_live by done. by rewrite andb_false_r, app_nil_r. }
  rewrite trigger_miss by done. rewrite andb_true_r.
  destruct (_is_relevant ev); [by rewrite run_tests_eq |].
  simpl. by rewrite app_nil_r.
Qed.

Lemma trigger_keeps_flag ev w :
  _tests_running w = false -> _tests_running (snd (_trigger ev w)) = false.
Proof.
  intros Hrun.
  destruct (live (clock (clock_reads w)) (_get_cache_key ev) (_file_cache w)) eqn:Hl.
  { by rewrite trigger_live. }
  rewrite trigger_miss by done.
  destruct (_is_relevant ev); [by rewrite run_tests_eq | done].
Qed.

(** X1: with the running flag false, [_trigger] runs the tests exactly when
    the event is relevant and its key is not live in the cache; it raises
    exactly when that run raises, with the exception of [os.system]; and it
    leaves the flag false in every case. *)
Theorem trigger_decision ev w :
  _tests_running w = false ->
  let go := _is_relevant ev &&
            negb (live (clock (clock_reads w)) (_get_cache_key ev) (_file_cache w)) in
  _tests_running (snd (_trigger ev w)) = false /\
  os_system_calls (snd (_trigger ev w)) =
    os_system_calls w ++ (if go then ["py.test"] else []) /\
  fst (_trigger ev w) =
    if go
    then match os_system (os_system_calls w) "py.test" with
         | Returned _ => Returned tt
         | Raised e => Raised e
         end
    else Returned tt.
Proof.
  intros Hrun go. split; [by apply trigger_keeps_flag |].
  split; [rewrite trigger_calls; unfold runs; by rewrite Hrun |].
  unfold go. destruct (live _ _ _) eqn:Hlive.
  { rewrite trigger_live by done. by rewrite andb_false_r. }
  rewrite trigger_miss by done. rewrite andb_true_r.
  destruct (_is_relevant ev); [by rewrite run_tests_eq | done].
Qed.

(** X2: the debounce goes by the cache key alone.  After any event handled
    with the flag false, relevant or not, the cache holds its key, and an
    event with the same key that is looked up less than [FILE_CACHE_AGE]
    after the stored time runs no tests, even when it is relevant. *)
Theorem debounce_masks_same_key ev1 ev2 w :
  _tests_running w = false ->
  cache_ok (_file_cache w) ->
  _get_cache_key ev2 = _get_cache_key ev1 ->
  let w1 := snd (_trigger ev1 w) in
  exists item,
    od_get (_get_cache_key ev1) (items (_file_cache w1)) = Some item /\
    ((clock (clock_reads w1) - snd item < FILE_CACHE_AGE)%Q ->
     os_system_calls (snd (_trigger ev2 w1)) = os_system_calls w1 /\
     fst (_trigger ev2 w1) = Returned tt).
Proof.
  intros Hrun Hok Hkey w1.
  pose proof (trigger_cache_ok clock os_system str_event ev1 w Hok) as Hok1.
  pose proof (trigger_keeps_flag ev1 w Hrun) as Hrun1.
  fold w1 in Hok1, Hrun1.
  assert (exists item,
            od_get (_get_cache_key ev1) (items (_file_cache w1)) = Some item)
    as [item Hitem].
  { unfold w1.
    destruct (live (clock (clock_reads w)) (_get_cache_key ev1) (_file_cache w)) eqn:Hl.
    - rewrite trigger_live by done. simpl.
      unfold live in Hl. destruct (od_get _ _) as [item|]; [by exists item | done].
    - rewrite trigger_miss by done. eexists.
      destruct (_is_relevant ev1); [rewrite run_tests_eq |]; apply world_after_set_get. }
  clearbody w1. exists item. split; [done |].
  intros Hin. rewrite trigger_live; [done | done |].
  unfold live. rewrite Hkey, Hitem.
  destruct Hok1 as (_ & -> & _). by apply Qltb_true.
Qed.

Lemma od_set_length {V} key (v : V) l :
  List.length (od_set key v l) <= S (List.length l).
Proof.
  induction l as [|[k v'] l IH]; simpl; [lia |].
  destruct (String.eqb k key); simpl; lia.
Qed.

Lemma od_del_length {V} key (l : list (string * V)) :
  List.length (od_del key l) <= List.length l.
Proof.
  induction l as [|[k v'] l IH]; simpl; [lia |].
  destruct (String.eqb k key); simpl; lia.
Qed.

Lemma world_after_set_bound key w :
  (1 <= max_len (_file_cache w))%N ->
  (N.of_nat (List.length (items (_file_cache w))) <= max_len (_file_cache w))%N ->
  (N.of_nat (List.length (items (_file_cache (world_after_set clock key w))))
   <= max_len (_file_cache w))%N.
Proof.
  intros Hpos Hlen. simpl. unfold items_after_set.
  assert (List.length (items_after_miss key w) <=
          List.length (items (_file_cache w))) as Hmiss.
  { unfold items_after_miss. destruct (od_get _ _); [apply od_del_length | lia]. }
  destruct (N.eqb_spec (N.of_nat (List.length (items_after_miss key w)))
                       (max_len (_file_cache w))) as [Heq|Hne].
  - pose proof (od_set_length key (true, clock (reads_after_miss key w))
                  (od_popfirst (items_after_miss key w))) as Hset.
    unfold od_popfirst in *.
    destruct (items_after_miss key w) as [|x l]; simpl in *; lia.
  - pose proof (od_set_length key (true, clock (reads_after_miss key w))
                  (items_after_miss key w)) as Hset.
    lia.
Qed.

(** X3: the cache stays within its bounds over any stream of events: it
    never holds more than [FILE_CACHE_SIZE] keys, never holds a key twice,
    and keeps its size limit and its age limit. *)
Theorem cache_bounded evs w :
  cache_ok (_file_cache w) ->
  (N.of_nat (List.length (items (_file_cache w))) <= FILE_CACHE_SIZE)%N ->
  cache_ok (_file_cache (run_events evs w)) /\
  (N.of_nat (List.length (items (_file_cache (run_events evs w))))
   <= FILE_CACHE_SIZE)%N.
Proof.
  revert w. induction evs as [|ev evs IH]; intros w Hok Hlen; simpl; [done |].
  apply IH; [by apply trigger_cache_ok |].
  destruct Hok as (Hmax & _ & _).
  assert ((1 <= max_len (_file_cache w))%N) as Hpos by (by rewrite Hmax).
  rewrite <- Hmax in Hlen.
  pose proof (world_after_set_bound (_get_cache_key ev) w Hpos Hlen) as Hset.
  rewrite Hmax in *.
  destruct (_tests_running w) eqn:Hrun.
  { by rewrite trigger_running. }
  destruct (live (clock (clock_reads w)) (_get_cache_key ev) (_file_cache w)) eqn:Hl.
  { by rewrite trigger_live. }
  rewrite trigger_miss by done.
  destruct (_is_relevant ev); [by rewrite run_tests_eq | done].
Qed.

(** X4: over any stream of events, with any state of the flag and of the
    cache, the tests are run at most once per relevant event, and [py.test]
    is the only command ever run; so a stream without a relevant event runs
    nothing. *)
Theorem runs_bounded_by_relevant evs w :
  exists k,
    os_system_calls (run_events evs w) =
      os_system_calls w ++ replicate k "py.test" /\
    k <= List.length (List.filter _is_relevant evs).
Proof.
  revert w. induction evs as [|ev evs IH]; intros w; simpl.
  - exists 0. by rewrite app_nil_r.
  - destruct (IH (snd (_trigger ev w))) as (k & -> & Hk).
    rewrite trigger_calls. unfold runs.
    destruct (_is_relevant ev); simpl.
    + destruct (negb (_tests_running w) && true && negb _).
      * exists (S k). rewrite <- app_assoc. split; [done | lia].
      * exists k. rewrite app_nil_r. split; [done | lia].
    + rewrite andb_false_r. simpl. exists k. by rewrite app_nil_r.
Qed.

(** X5: [clear_cache] forgets every key: with the flag false, a relevant
    event that follows it runs the tests, however recently its key was
    stored. *)
Theorem clear_cache_forgets ev w :
  _tests_running w = false ->
  _is_relevant ev = true ->
  fst (clear_cache w) = Returned tt /\
  os_system_calls (snd (_trigger ev (snd (clear_cache w)))) =
  os_system_calls w ++ ["py.test"].
Proof.
  intros Hrun Hrel. split; [done |].
  rewrite trigger_calls. unfold runs. simpl. by rewrite Hrun, Hrel.
Qed.

End Streams.

(** X6: relevance is a suffix test on the paths of the event, with the case
    of the letters as it is: an event is relevant exactly when its cache
    key or its source path is some string followed by [.py]. *)
Theorem is_relevant_suffix ev :
  _is_relevant ev = true <->
  (exists stem, _get_cache_key ev = stem +:+ ".py") \/
  (exists stem, src_path ev = stem +:+ ".py").
Proof. by rewrite is_relevant_eq, orb_true_iff, !endswith_iff. Qed.

Example pyc_not_relevant : _is_relevant (FileModifiedEvent "/p/mod.pyc") = false.
Proof. reflexivity. Qed.

Example upper_case_not_relevant : _is_relevant (FileModifiedEvent "/p/MOD.PY") = false.
Proof. reflexivity. Qed.

Lemma debounce_masks_same_key_witness :
  let ev1 := FileCreatedEvent "/p/notes.txt" in
  let ev2 := FileMovedEvent "/p/mod.py" "/p/notes.txt" in
  (_tests_running new_world = false /\
   cache_ok (_file_cache new_world) /\
   _get_cache_key ev2 = _get_cache_key ev1 /\
   _is_relevant ev2 = true) /\
  exists item,
    od_get (_get_cache_key ev1)
      (items (_file_cache (snd (_trigger quarter_clock system_ok event_text ev1
                                  new_world)))) = Some item.
Proof.
  intros ev1 ev2.
  split; [split_and!; [reflexivity | apply new_world_ok | reflexivity | reflexivity] |].
  destruct (debounce_masks_same_key quarter_clock system_ok event_text ev1 ev2
              new_world eq_refl new_world_ok eq_refl) as [item [Hitem _]].
  by exists item.
Defined.

Example relevant_move_masked :
  os_system_calls
    (snd (_trigger quarter_clock system_ok event_text
            (FileMovedEvent "/p/mod.py" "/p/notes.txt")
       (snd (_trigger quarter_clock system_ok event_text
               (FileCreatedEvent "/p/notes.txt") new_world)))) = [].
Proof. reflexivity. Qed.

Lemma trigger_decision_witness :
  _tests_running new_world = false /\
  fst (_trigger quarter_clock system_raises event_text (FileModifiedEvent "/p/mod.py")
         new_world) = Raised (Exception "Dummy exception").
Proof.
  split; [reflexivity |].
  apply (trigger_decision quarter_clock system_raises event_text
           (FileModifiedEvent "/p/mod.py") new_world eq_refl).
Defined.

Lemma cache_bounded_witness :
  let evs := [FileCreatedEvent "/p/a.py"; FileModifiedEvent "/p/a.py";
              FileMovedEvent "/p/a.py" "/p/b.py"] in
  (cache_ok (_file_cache new_world) /\
   (N.of_nat (List.length (items (_file_cache new_world))) <= FILE_CACHE_SIZE)%N) /\
  (N.of_nat (List.length
     (items (_file_cache (run_events quarter_clock system_ok event_text evs new_world))))
   <= FILE_CACHE_SIZE)%N.
Proof.
  intros evs.
  assert ((N.of_nat (List.length (items (_file_cache new_world))) <= FILE_CACHE_SIZE)%N)
    as Hlen by (by vm_compute).
  split; [split; [apply new_world_ok | exact Hlen] |].
  exact (proj2 (cache_bounded quarter_clock system_ok event_text evs new_world
                  new_world_ok Hlen)).
Defined.

Lemma clear_cache_forgets_witness :
  let ev := FileModifiedEvent "/p/mod.py" in
  let w := snd (_trigger quarter_clock system_ok event_text ev new_world) in
  (_tests_running w = false /\ _is_relevant ev = true) /\
  os_system_calls
    (snd (_trigger quarter_clock system_ok event_text ev (snd (clear_cache w)))) =
  ["py.test"; "py.test"].
Proof.
  intros ev w. split; [by split |].
  exact (proj2 (clear_cache_forgets quarter_clock system_ok event_text ev w
                  eq_refl eq_refl)).
Defined.

End HandlerFacts.

(** ** Properties of the test-session reporter *)

Module PluginFacts.
Import TestMonitorPlugin.

Ltac run_monad :=
  unfold bind, ret, get, modify, raise, try_finally, try_except, lift; simpl.

Lemma verdict_map_known o v :
  VERDICT_MAP !! o = Some v ->
  o ∈ ["passed"; "failed"; "skipped"; "error"].
Proof.
  unfold VERDICT_MAP. simpl.
  intros H. repeat (apply lookup_insert_Some in H as [[<- _]|[_ H]];
                    [set_solver |]).
  by rewrite lookup_empty in H.
Qed.

Lemma verdict_map_unknown o :
  o ∉ ["passed"; "failed"; "skipped"; "error"] -> VERDICT_MAP !! o = None.
Proof.
  intros H. destruct (VERDICT_MAP !! o) as [v|] eqn:E; [| done].
  by apply verdict_map_known in E.
Qed.

Lemma verdict_map_skipped : VERDICT_MAP !! "skipped" = Some "skipped".
Proof. reflexivity. Qed.

Section Reporter.
Variable clock : nat -> Q.
Variable hostname : string.
Variable cwd : string.
Variable md5_hexdigest : string -> string.
Variable create_connection : string -> completion WebSocket.
Variable serialize : Event -> completion string.
Variable websocket_send : list string -> string -> completion unit.
Variable str_keywords : list string -> string.
Variable str_data : Event -> string.
Variable str_collectreport : CollectReport -> string.

Local Abbreviation suite_name := (suite_name hostname cwd).
Local Abbreviation suite_hash := (suite_hash hostname cwd md5_hexdigest).
Local Abbreviation tc_name := (tc_name str_keywords).
Local Abbreviation send_event := (send_event serialize websocket_send str_data).
Local Abbreviation _send_start_event :=
  (_send_start_event hostname cwd md5_hexdigest serialize websocket_send str_data).
Local Abbreviation report_test_case :=
  (report_test_case hostname cwd md5_hexdigest serialize websocket_send
     str_keywords str_data).
Local Abbreviation pytest_runtest_logreport :=
  (pytest_runtest_logreport clock hostname cwd md5_hexdigest serialize
     websocket_send str_keywords str_data).
Local Abbreviation pytest_sessionfinish :=
  (pytest_sessionfinish hostname cwd md5_hexdigest serialize websocket_send str_data).
Local Abbreviation pytest_collectreport := (pytest_collectreport str_collectreport).
Local Abbreviation __init__ := (__init__ create_connection).
Local Abbreviation call_hook :=
  (call_hook clock hostname cwd md5_hexdigest serialize websocket_send
     str_keywords str_data str_collectreport).
Local Abbreviation run_hooks :=
  (run_hooks clock hostname cwd md5_hexdigest serialize websocket_send
     str_keywords str_data str_collectreport).
Local Abbreviation run_session :=
  (run_session clock hostname cwd md5_hexdigest create_connection serialize
     websocket_send str_keywords str_data str_collectreport).
Local Abbreviation events_of_call :=
  (events_of_call clock hostname cwd md5_hexdigest serialize websocket_send
     str_keywords str_data str_collectreport).
Local Abbreviation events_for :=
  (events_for clock hostname cwd md5_hexdigest serialize websocket_send
     str_keywords str_data str_collectreport).

(** [send_event] never raises; it records the event and touches nothing but
    the wire and the log. *)
Lemma send_event_eq ev w :
  exists wire' log',
    send_event ev w =
    (Returned tt,
     mkWorld (tc_count w) (self w) (clock_reads w) (emitted w ++ [ev]) wire' log').
Proof.
  unfold TestMonitorPlugin.send_event, send_event_failed, call_websocket_send,
    logging_exception, _log.
  run_monad.
  destruct (serialize ev) as [ser|e]; simpl; [| eauto].
  destruct (_websocket (self w)); simpl; [| eauto].
  destruct (websocket_send (wire w) ser); simpl; eauto.
Qed.

Lemma send_start_event_eq w :
  exists wire' log',
    _send_start_event w =
    (Returned tt,
     mkWorld (tc_count w) (set_current_suite (Some suite_name) (self w))
             (clock_reads w)
             (emitted w ++ [SessionStartedEvent suite_name suite_hash (tc_count w)])
             wire' log').
Proof.
  unfold TestMonitorPlugin._send_start_event, modify_self.
  rewrite bind_modify, bind_get.
  match goal with |- context [send_event ?e ?w'] =>
    destruct (send_event_eq e w') as (wire' & log' & ->) end.
  simpl. eauto.
Qed.

(** The events of the start, when it has not been sent yet. *)
Definition start_events (w : World) : list Event :=
  if _start_message_sent (self w) then []
  else [SessionStartedEvent suite_name suite_hash (tc_count w)].

Definition started (p : Plugin) : Plugin :=
  if _start_message_sent p then p
  else set_start_message_sent true (set_current_suite (Some suite_name) p).

Lemma report_test_case_eq r d w :
  exists wire' log',
    report_test_case r d w =
    match VERDICT_MAP !! outcome r with
    | Some verdict =>
      (Returned tt,
       mkWorld (tc_count w)
               (set_reports (reports (started (self w)) ++ [r]) (started (self w)))
               (clock_reads w)
               (emitted w ++ start_events w ++
                [TestCaseFinishedEvent (tc_name r) (fspath r) verdict d suite_hash])
               wire' log')
    | None =>
      (Raised (KeyError (outcome r)),
       mkWorld (tc_count w) (started (self w)) (clock_reads w)
               (emitted w ++ start_events w) wire' log')
    end.
Proof.
  unfold TestMonitorPlugin.report_test_case, verdict_of, modify_self,
    start_events, started.
  rewrite bind_get.
  destruct (_start_message_sent (self w)) eqn:Hsent; simpl negb; cbv iota.
  - rewrite bind_ret.
    destruct (VERDICT_MAP !! outcome r) as [verdict|].
    + rewrite bind_ret.
      destruct (send_event_eq
                  (TestCaseFinishedEvent (tc_name r) (fspath r) verdict d suite_hash) w)
        as (wire' & log' & Hsend).
      rewrite (bind_returned _ _ _ _ _ Hsend).
      unfold modify. simpl. exists wire', log'. by destruct w.
    + rewrite bind_raise. exists (wire w), (log w). rewrite app_nil_r. by destruct w.
  - destruct (send_start_event_eq w) as (wire1 & log1 & Hstart).
    erewrite bind_returned;
      [| erewrite bind_returned; [| apply Hstart]; reflexivity].
    destruct (VERDICT_MAP !! outcome r) as [verdict|].
    + rewrite bind_ret. cbv beta.
      match goal with |- context [bind (send_event ?e) _ ?w'] =>
        destruct (send_event_eq e w') as (wire' & log' & Hsend) end.
      rewrite (bind_returned _ _ _ _ _ Hsend).
      unfold modify. simpl. exists wire', log'. by rewrite <- app_assoc.
    + rewrite bind_raise. simpl. eauto.
Qed.

(** [pytest_runtest_logreport] by the phase of the report. *)
Definition after_setup (r : TestReport) (w : World) : World :=
  mkWorld (tc_count w)
          (set_test_cases (<[nodeid r := clock (clock_reads w)]> (_test_cases (self w)))
                          (self w))
          (S (clock_reads w)) (emitted w) (wire w) (log w).

Definition after_clock_read (w : World) : World :=
  mkWorld (tc_count w) (self w) (S (clock_reads w)) (emitted w) (wire w) (log w).

Lemma logreport_setup r w :
  when r = "setup" ->
  pytest_runtest_logreport r w =
  if String.eqb (outcome r) "skipped"
  then report_test_case r 0 (after_setup r w)
  else (Returned tt, after_setup r w).
Proof.
  intros Hwhen. unfold TestMonitorPlugin.pytest_runtest_logreport, time_time, modify_self.
  rewrite Hwhen. simpl String.eqb. cbv iota.
  unfold bind at 1. unfold bind at 1. unfold modify at 1.
  cbv beta iota delta [negb andb].
  by destruct (String.eqb (outcome r) "skipped").
Qed.

Lemma logreport_call r w :
  when r = "call" ->
  pytest_runtest_logreport r w =
  match _test_cases (self w) !! nodeid r with
  | None => _log ("Test case " +:+ tc_name r +:+ " not found") [] w
  | Some t0 =>
    report_test_case r (py_int ((clock (clock_reads w) - t0) * 1000))
                     (after_clock_read w)
  end.
Proof.
  intros Hwhen. unfold TestMonitorPlugin.pytest_runtest_logreport, time_time.
  rewrite Hwhen. simpl String.eqb. cbv iota.
  rewrite bind_ret. cbv beta iota delta [negb andb].
  rewrite bind_get. by destruct (_test_cases (self w) !! nodeid r).
Qed.

Lemma logreport_other r w :
  when r <> "setup" -> when r <> "call" ->
  pytest_runtest_logreport r w = (Returned tt, w).
Proof.
  intros Hs Hc. unfold TestMonitorPlugin.pytest_runtest_logreport.
  apply String.eqb_neq in Hs, Hc. by rewrite Hs, Hc.
Qed.

(** What one test report adds to the trace: nothing, or the start event if
    it is due followed by the case event if the outcome has a verdict. *)
Lemma logreport_effect r w :
  let w' := snd (pytest_runtest_logreport r w) in
  tc_count w' = tc_count w /\
  ((emitted w' = emitted w /\
    _start_message_sent (self w') = _start_message_sent (self w)) \/
   (_start_message_sent (self w') = true /\
    exists d,
      emitted w' =
      emitted w ++ start_events w ++
      match VERDICT_MAP !! outcome r with
      | Some verdict =>
        [TestCaseFinishedEvent (tc_name r) (fspath r) verdict d suite_hash]
      | None => []
      end)).
Proof.
  assert (forall d w1,
    tc_count w1 = tc_count w -> emitted w1 = emitted w ->
    _start_message_sent (self w1) = _start_message_sent (self w) ->
    let w' := snd (report_test_case r d w1) in
    tc_count w' = tc_count w /\
    _start_message_sent (self w') = true /\
    emitted w' =
      emitted w ++ start_events w ++
      match VERDICT_MAP !! outcome r with
      | Some verdict =>
        [TestCaseFinishedEvent (tc_name r) (fspath r) verdict d suite_hash]
      | None => []
      end) as Hreport.
  { intros d w1 Htc Hem Hsent.
    destruct (report_test_case_eq r d w1) as (wire' & log' & ->).
    unfold start_events, started. rewrite Htc, Hem, Hsent.
    destruct (VERDICT_MAP !! outcome r); simpl;
      destruct (_start_message_sent (self w)) eqn:E; simpl;
      rewrite ?app_nil_r; auto. }
  destruct (String.eqb_spec (when r) "setup") as [Hs|Hs].
  { rewrite logreport_setup by done.
    destruct (String.eqb (outcome r) "skipped").
    - destruct (Hreport 0%Z (after_setup r w)) as (? & ? & ?); eauto.
    - simpl. auto. }
  destruct (String.eqb_spec (when r) "call") as [Hc|Hc].
  { rewrite logreport_call by done.
    destruct (_test_cases (self w) !! nodeid r) as [t0|].
    - destruct (Hreport (py_int ((clock (clock_reads w) - t0) * 1000))
                        (after_clock_read w)) as (? & ? & ?); eauto.
    - simpl. auto. }
  rewrite logreport_other by done. simpl. auto.
Qed.

Lemma init_effect url w :
  tc_count (snd (__init__ url w)) = tc_count w /\
  emitted (snd (__init__ url w)) = emitted w /\
  _start_message_sent (self (snd (__init__ url w))) = false.
Proof.
  unfold TestMonitorPlugin.__init__, _log, modify_self. run_monad.
  destruct (create_connection url) as [ws|[]]; done.
Qed.

Lemma sessionfinish_effect w :
  emitted (snd (pytest_sessionfinish w)) =
  emitted w ++ [SessionTerminatedEvent suite_hash;
                ConnectionTerminationEvent suite_hash].
Proof.
  unfold TestMonitorPlugin.pytest_sessionfinish, _log.
  rewrite bind_modify.
  match goal with |- context [bind (send_event ?e) _ ?w'] =>
    destruct (send_event_eq e w') as (wire1 & log1 & H1) end.
  rewrite (bind_returned _ _ _ _ _ H1).
  match goal with |- context [send_event ?e ?w'] =>
    destruct (send_event_eq e w') as (wire2 & log2 & ->) end.
  simpl. by rewrite <- app_assoc.
Qed.

Lemma collectreport_effect report w :
  snd (pytest_collectreport report w) =
  mkWorld (tc_count w + List.length (List.filter _is_relevant_tc (result report)))
          (self w) (clock_reads w) (emitted w) (wire w)
          (log w ++ [Printed "** testmon: pytest_collectreport: %s **"
                             [str_collectreport report]]).
Proof. reflexivity. Qed.

(** The trace of a session so far: nothing before the start is sent, then
    the start event followed by case events only. *)
Definition session_trace (sent : bool) (tr : list Event) : Prop :=
  if sent
  then exists n cases,
         tr = SessionStartedEvent suite_name suite_hash n :: cases /\
         Forall (fun e => is_test_case_finished e = true) cases
  else tr = [].

Lemma call_hook_trace h w base tr :
  emitted w = base ++ tr ->
  session_trace (_start_message_sent (self w)) tr ->
  exists tr',
    emitted (snd (call_hook h w)) = base ++ tr' /\
    session_trace (_start_message_sent (self (snd (call_hook h w)))) tr'.
Proof.
  intros Hem Htr.
  destruct h as [|c|cr|r]; simpl; try (exists tr; by split).
  destruct (logreport_effect r w) as [_ [[-> ->]|[-> [d ->]]]]; [by exists tr |].
  assert (exists case,
    match VERDICT_MAP !! outcome r with
    | Some verdict =>
      [TestCaseFinishedEvent (tc_name r) (fspath r) verdict d suite_hash]
    | None => []
    end = case /\ Forall (fun e => is_test_case_finished e = true) case)
    as (case & -> & Hcase).
  { destruct (VERDICT_MAP !! outcome r); eexists; split; eauto. }
  unfold start_events, session_trace in *.
  destruct (_start_message_sent (self w)).
  - destruct Htr as (n & cases & -> & Hcases).
    exists (SessionStartedEvent suite_name suite_hash n :: cases ++ case).
    rewrite Hem. simpl. rewrite <- app_assoc. split; [done |].
    exists n, (cases ++ case). split; [done |]. by apply Forall_app.
  - subst tr. rewrite Hem, app_nil_r. eexists. split; [done |]. eauto.
Qed.

Lemma run_hooks_trace hs w base tr :
  emitted w = base ++ tr ->
  session_trace (_start_message_sent (self w)) tr ->
  exists tr',
    emitted (run_hooks hs w) = base ++ tr' /\
    session_trace (_start_message_sent (self (run_hooks hs w))) tr'.
Proof.
  revert w tr. induction hs as [|h hs IH]; intros w tr Hem Htr; simpl.
  - by exists tr.
  - destruct (call_hook_trace h w base tr Hem Htr) as (tr1 & Hem1 & Htr1).
    by apply (IH _ tr1).
Qed.

(** Once the start is marked as sent, no hook call sends it again. *)
Lemma run_hooks_started hs w :
  _start_message_sent (self w) = true ->
  _start_message_sent (self (run_hooks hs w)) = true /\
  exists cases,
    emitted (run_hooks hs w) = emitted w ++ cases /\
    Forall (fun e => is_test_case_finished e = true) cases.
Proof.
  revert w. induction hs as [|h hs IH]; intros w Hsent; simpl.
  - split; [done |]. exists []. by rewrite app_nil_r.
  - assert (_start_message_sent (self (snd (call_hook h w))) = true /\
            exists cases,
              emitted (snd (call_hook h w)) = emitted w ++ cases /\
              Forall (fun e => is_test_case_finished e = true) cases)
      as (Hsent1 & cases1 & Hem1 & Hcases1).
    { destruct h as [|c|cr|r]; simpl;
        try (split; [done |]; exists []; by rewrite app_nil_r).
      destruct (logreport_effect r w) as [_ [[-> ->]|[-> [d ->]]]].
      - split; [done |]. exists []. by rewrite app_nil_r.
      - split; [done |]. unfold start_events. rewrite Hsent. simpl.
        eexists; split; [done |]. destruct (VERDICT_MAP !! outcome r); eauto. }
    destruct (IH _ Hsent1) as (Hsent2 & cases2 & Hem2 & Hcases2).
    split; [done |]. exists (cases1 ++ cases2).
    rewrite Hem2, Hem1, <- app_assoc. split; [done |]. by apply Forall_app.
Qed.

Lemma events_for_app id hs1 hs2 w :
  events_for id (hs1 ++ hs2) w =
  events_for id hs1 w ++ events_for id hs2 (run_hooks hs1 w).
Proof.
  revert w. induction hs1 as [|h hs1 IH]; intros w; simpl; [done |].
  by rewrite IH, <- app_assoc.
Qed.

Lemma events_for_other id hs w :
  (forall h, h ∈ hs -> reports_on id h = false) -> events_for id hs w = [].
Proof.
  revert w. induction hs as [|h hs IH]; intros w Hhs; simpl; [done |].
  rewrite (Hhs h) by apply list_elem_of_here. simpl.
  apply IH. intros h' Hh'. apply Hhs. by apply list_elem_of_further.
Qed.

(** C1: in every session (a new plugin instance, any hook calls, the
    session finish) the events emitted are, in this order: the start event,
    at most once; case events only, and none unless the start event was
    sent; the session-terminated event and right after it the
    connection-termination event, which are the last two whatever came
    before. *)
Theorem session_event_order url hs w :
  exists starts cases,
    emitted (run_session url hs w) =
      emitted w ++ starts ++ cases ++
      [SessionTerminatedEvent suite_hash; ConnectionTerminationEvent suite_hash] /\
    (starts = [] /\ cases = [] \/
     exists n, starts = [SessionStartedEvent suite_name suite_hash n]) /\
    Forall (fun e => is_test_case_finished e = true) cases.
Proof.
  unfold TestMonitorPlugin.run_session.
  destruct (init_effect url w) as (_ & Hem0 & Hsent0).
  destruct (run_hooks_trace hs (snd (__init__ url w)) (emitted w) [])
    as (tr & Hem & Htr).
  { by rewrite Hem0, app_nil_r. }
  { by rewrite Hsent0. }
  rewrite sessionfinish_effect, Hem.
  unfold session_trace in Htr.
  match type of Htr with (if ?sent then _ else _) => destruct sent end.
  - destruct Htr as (n & cases & -> & Hcases).
    exists [SessionStartedEvent suite_name suite_hash n], cases.
    split; [by rewrite <- !app_assoc |]. split; [eauto | done].
  - subst tr. exists [], []. rewrite app_nil_r. split; [done |]. split; [auto | done].
Qed.

(** C7: when the only test report for a node is the one of its setup phase
    with the outcome [skipped], the hook calls for that node emit exactly one
    case event, with the verdict [skipped] and the duration 0. *)
Theorem skipped_in_setup_reported hs1 r hs2 w :
  when r = "setup" ->
  outcome r = "skipped" ->
  (forall h, h ∈ hs1 ++ hs2 -> reports_on (nodeid r) h = false) ->
  List.filter is_test_case_finished
    (events_for (nodeid r) (hs1 ++ RuntestLogreport r :: hs2) w) =
  [TestCaseFinishedEvent (tc_name r) (fspath r) "skipped" 0 suite_hash].
Proof.
  intros Hwhen Hout Hothers.
  rewrite events_for_app. simpl.
  rewrite String.eqb_refl.
  rewrite (events_for_other _ hs1), (events_for_other _ hs2); cycle 1.
  { intros h Hh. apply Hothers. apply elem_of_app. by right. }
  { intros h Hh. apply Hothers. apply elem_of_app. by left. }
  rewrite app_nil_r. simpl.
  unfold TestMonitorPlugin.events_of_call. simpl.
  rewrite logreport_setup by done. rewrite Hout. simpl String.eqb. cbv iota.
  destruct (report_test_case_eq r 0 (after_setup r (run_hooks hs1 w)))
    as (wire' & log' & ->).
  rewrite Hout, verdict_map_skipped. simpl.
  rewrite drop_app_length. unfold start_events.
  by destruct (_start_message_sent _).
Qed.

(** C8: the counter of test cases belongs to the process, not to a plugin
    instance.  A collection report adds the number of its test items to it,
    other nodes not counted; making a new instance keeps it; and the start
    event of the session that follows two collection reports carries the
    sum. *)
Theorem tc_count_process_wide :
  (forall report w,
     tc_count (snd (pytest_collectreport report w)) =
     tc_count w + List.length (List.filter _is_relevant_tc (result report))) /\
  (forall url w, tc_count (snd (__init__ url w)) = tc_count w) /\
  (forall url1 url2 c1 c2 r w,
     when r = "setup" -> outcome r = "skipped" ->
     let collected :=
       snd (pytest_collectreport c2
              (snd (pytest_collectreport c1 (snd (__init__ url1 w))))) in
     let total :=
       tc_count w + List.length (List.filter _is_relevant_tc (result c1))
                  + List.length (List.filter _is_relevant_tc (result c2)) in
     emitted (snd (pytest_runtest_logreport r (snd (__init__ url2 collected)))) =
     emitted w ++
     [SessionStartedEvent suite_name suite_hash total;
      TestCaseFinishedEvent (tc_name r) (fspath r) "skipped" 0 suite_hash]).
Proof.
  split; [done |]. split; [intros; apply init_effect |].
  intros url1 url2 c1 c2 r w Hwhen Hout collected total.
  destruct (init_effect url1 w) as (Htc1 & Hem1 & _).
  destruct (init_effect url2 collected) as (Htc2 & Hem2 & Hsent2).
  rewrite logreport_setup by done. rewrite Hout. simpl String.eqb. cbv iota.
  destruct (report_test_case_eq r 0 (after_setup r (snd (__init__ url2 collected))))
    as (wire' & log' & ->).
  rewrite Hout, verdict_map_skipped. simpl.
  unfold start_events. simpl. rewrite Hsent2, Htc2, Hem2.
  unfold collected. rewrite !collectreport_effect. simpl.
  by rewrite Htc1, Hem1.
Qed.

(** C9: a test report that gets as far as the case event (the call phase of
    a node whose setup time is recorded, or a setup phase skipped) with an
    outcome that is none of [passed], [failed], [skipped] and [error] makes
    the hook raise [KeyError]; the call emits no case event (only the start
    event, if it was still due). *)
Theorem unmapped_outcome_raises r w :
  (when r = "call" /\ is_Some (_test_cases (self w) !! nodeid r)) \/
  (when r = "setup" /\ outcome r = "skipped") ->
  outcome r ∉ ["passed"; "failed"; "skipped"; "error"] ->
  fst (pytest_runtest_logreport r w) = Raised (KeyError (outcome r)) /\
  emitted (snd (pytest_runtest_logreport r w)) =
    emitted w ++
    (if _start_message_sent (self w) then []
     else [SessionStartedEvent suite_name suite_hash (tc_count w)]) /\
  List.filter is_test_case_finished (events_of_call (RuntestLogreport r) w) = [].
Proof.
  intros [[Hwhen [t0 Ht0]]|[Hwhen Hout]] Hunknown.
  - pose proof (verdict_map_unknown _ Hunknown) as Hmap.
    unfold TestMonitorPlugin.events_of_call. simpl.
    rewrite logreport_call by done. rewrite Ht0.
    match goal with |- context [report_test_case r ?d ?w'] =>
      destruct (report_test_case_eq r d w') as (wire' & log' & ->) end.
    rewrite Hmap. simpl. unfold start_events. simpl.
    rewrite drop_app_length.
    by destruct (_start_message_sent (self w)).
  - exfalso. apply Hunknown. rewrite Hout.
    do 2 apply list_elem_of_further. apply list_elem_of_here.
Qed.

(** C10: when the start event is still due and a report of the call phase
    with a recorded setup time carries an outcome without a verdict, the
    hook raises after the start event is emitted and the flag is set; both
    stay, so whatever hook calls follow in the session add case events only,
    never a second start event. *)
Theorem start_event_not_rolled_back r w :
  _start_message_sent (self w) = false ->
  when r = "call" ->
  is_Some (_test_cases (self w) !! nodeid r) ->
  outcome r ∉ ["passed"; "failed"; "skipped"; "error"] ->
  let w1 := snd (pytest_runtest_logreport r w) in
  fst (pytest_runtest_logreport r w) = Raised (KeyError (outcome r)) /\
  emitted w1 = emitted w ++ [SessionStartedEvent suite_name suite_hash (tc_count w)] /\
  _start_message_sent (self w1) = true /\
  forall hs,
    _start_message_sent (self (run_hooks hs w1)) = true /\
    exists cases,
      emitted (run_hooks hs w1) = emitted w1 ++ cases /\
      Forall (fun e => is_test_case_finished e = true) cases.
Proof.
  intros Hsent Hwhen [t0 Ht0] Hunknown w1.
  pose proof (verdict_map_unknown _ Hunknown) as Hmap.
  assert (fst (pytest_runtest_logreport r w) = Raised (KeyError (outcome r)) /\
          emitted w1 =
            emitted w ++ [SessionStartedEvent suite_name suite_hash (tc_count w)] /\
          _start_message_sent (self w1) = true) as (Hres & Hem & Hsent1).
  { unfold w1. rewrite logreport_call by done. rewrite Ht0.
    match goal with |- context [report_test_case r ?d ?w'] =>
      destruct (report_test_case_eq r d w') as (wire' & log' & ->) end.
    rewrite Hmap. simpl. unfold start_events, started. simpl. by rewrite Hsent. }
  split; [done |]. split; [done |]. split; [done |].
  intros hs. by apply run_hooks_started.
Qed.

End Reporter.

(** *** The reporter on concrete sessions *)




Example two_cases_session :
  emitted (session [RuntestLogreport setup_A; RuntestLogreport call_A;
                    RuntestLogreport setup_B; RuntestLogreport call_B]) =
  [SessionStartedEvent "host: /work" "md5(host: /work)" 0;
   TestCaseFinishedEvent "A" "t.py" "pass" 250 "md5(host: /work)";
   TestCaseFinishedEvent "B" "t.py" "fail" 250 "md5(host: /work)";
   SessionTerminatedEvent "md5(host: /work)";
   ConnectionTerminationEvent "md5(host: /work)"].
Proof. vm_compute. reflexivity. Qed.

Example empty_session :
  emitted (session []) =
  [SessionTerminatedEvent "md5(host: /work)";
   ConnectionTerminationEvent "md5(host: /work)"].
Proof. vm_compute. reflexivity. Qed.

Example start_without_case :
  emitted (session [RuntestLogreport setup_D; RuntestLogreport call_D;
                    RuntestLogreport setup_A; RuntestLogreport call_A]) =
  [SessionStartedEvent "host: /work" "md5(host: /work)" 0;
   TestCaseFinishedEvent "A" "t.py" "pass" 250 "md5(host: /work)";
   SessionTerminatedEvent "md5(host: /work)";
   ConnectionTerminationEvent "md5(host: /work)"].
Proof. vm_compute. reflexivity. Qed.

Lemma skipped_in_setup_reported_witness :
  when skip_C = "setup" /\ outcome skip_C = "skipped" /\
  List.filter is_test_case_finished
    (events_for quarter_clock "host" "/work" fixed_digest event_kind delivered
       keywords_text data_text collectreport_text "t.py::C"
       [RuntestLogreport setup_A; RuntestLogreport call_A;
        RuntestLogreport skip_C; RuntestLogreport teardown_A]
       new_process) =
  [TestCaseFinishedEvent "C" "t.py" "skipped" 0 "md5(host: /work)"].
Proof.
  split; [reflexivity |]. split; [reflexivity |].
  apply (skipped_in_setup_reported quarter_clock "host" "/work" fixed_digest
           event_kind delivered keywords_text data_text collectreport_text
           [RuntestLogreport setup_A; RuntestLogreport call_A] skip_C
           [RuntestLogreport teardown_A] new_process);
    [reflexivity | reflexivity |].
  apply Forall_forall. repeat constructor.
Defined.

Lemma tc_count_process_wide_witness :
  (when skip_C = "setup" /\ outcome skip_C = "skipped") /\
  emitted
    (snd (pytest_runtest_logreport quarter_clock "host" "/work" fixed_digest
            event_kind delivered keywords_text data_text skip_C
       (snd (__init__ refused "ws://localhost:5000/event"
          (snd (pytest_collectreport collectreport_text five_items
             (snd (pytest_collectreport collectreport_text three_items
                (snd (__init__ refused "ws://localhost:5000/event"
                        new_process)))))))))) =
  [SessionStartedEvent "host: /work" "md5(host: /work)" 8;
   TestCaseFinishedEvent "C" "t.py" "skipped" 0 "md5(host: /work)"].
Proof.
  split; [by split |].
  exact (proj2 (proj2 (tc_count_process_wide quarter_clock "host" "/work"
                         fixed_digest refused event_kind delivered keywords_text
                         data_text collectreport_text))
           "ws://localhost:5000/event" "ws://localhost:5000/event"
           three_items five_items skip_C new_process eq_refl eq_refl).
Defined.

Lemma setup_D_recorded :
  is_Some (_test_cases (self after_setup_D) !! nodeid call_D).
Proof. eexists. vm_compute. reflexivity. Defined.

Lemma xfailed_unknown :
  outcome call_D ∉ ["passed"; "failed"; "skipped"; "error"].
Proof. apply (bool_decide_unpack _). vm_compute. exact I. Defined.

Lemma unmapped_outcome_raises_witness :
  (when call_D = "call" /\
   is_Some (_test_cases (self after_setup_D) !! nodeid call_D) /\
   outcome call_D ∉ ["passed"; "failed"; "skipped"; "error"]) /\
  fst (pytest_runtest_logreport quarter_clock "host" "/work" fixed_digest
         event_kind delivered keywords_text data_text call_D after_setup_D) =
  Raised (KeyError "xfailed").
Proof.
  split; [split_and!; [reflexivity | apply setup_D_recorded | apply xfailed_unknown] |].
  apply (unmapped_outcome_raises quarter_clock "host" "/work" fixed_digest
           event_kind delivered keywords_text data_text collectreport_text
           call_D after_setup_D).
  - left. split; [reflexivity | apply setup_D_recorded].
  - apply xfailed_unknown.
Defined.

Lemma start_event_not_rolled_back_witness :
  (_start_message_sent (self after_setup_D) = false /\
   when call_D = "call" /\
   is_Some (_test_cases (self after_setup_D) !! nodeid call_D) /\
   outcome call_D ∉ ["passed"; "failed"; "skipped"; "error"]) /\
  emitted
    (snd (pytest_runtest_logreport quarter_clock "host" "/work" fixed_digest
            event_kind delivered keywords_text data_text call_D after_setup_D)) =
  [SessionStartedEvent "host: /work" "md5(host: /work)" 0].
Proof.
  split; [split_and!; [reflexivity | reflexivity | apply setup_D_recorded
                       | apply xfailed_unknown] |].
  apply (start_event_not_rolled_back quarter_clock "host" "/work" fixed_digest
           event_kind delivered keywords_text data_text collectreport_text
           call_D after_setup_D);
    [reflexivity | reflexivity | apply setup_D_recorded | apply xfailed_unknown].
Defined.

(** *** Further properties of the reporter *)

Section Delivery.
Variable clock : nat -> Q.
Variable hostname : string.
Variable cwd : string.
Variable md5_hexdigest : string -> string.
Variable create_connection : string -> completion WebSocket.
Variable serialize : Event -> completion string.
Variable websocket_send : list string -> string -> completion unit.
Variable str_keywords : list string -> string.
Variable str_data : Event -> string.
Variable str_collectreport : CollectReport -> string.

Local Abbreviation suite_name := (suite_name hostname cwd).
Local Abbreviation suite_hash := (suite_hash hostname cwd md5_hexdigest).
Local Abbreviation tc_name := (tc_name str_keywords).
Local Abbreviation send_event := (send_event serialize websocket_send str_data).
Local Abbreviation _send_start_event :=
  (_send_start_event hostname cwd md5_hexdigest serialize websocket_send str_data).
Local Abbreviation report_test_case :=
  (report_test_case hostname cwd md5_hexdigest serialize websocket_send
     str_keywords str_data).
Local Abbreviation pytest_runtest_logreport :=
  (pytest_runtest_logreport clock hostname cwd md5_hexdigest serialize
     websocket_send str_keywords str_data).
Local Abbreviation pytest_sessionfinish :=
  (pytest_sessionfinish hostname cwd md5_hexdigest serialize websocket_send str_data).
Local Abbreviation pytest_collectreport := (pytest_collectreport str_collectreport).
Local Abbreviation __init__ := (__init__ create_connection).
Local Abbreviation call_hook :=
  (call_hook clock hostname cwd md5_hexdigest serialize websocket_send
     str_keywords str_data str_collectreport).
Local Abbreviation run_hooks :=
  (run_hooks clock hostname cwd md5_hexdigest serialize websocket_send
     str_keywords str_data str_collectreport).
Local Abbreviation run_session :=
  (run_session clock hostname cwd md5_hexdigest create_connection serialize
     websocket_send str_keywords str_data str_collectreport).
Local Abbreviation events_of_call :=
  (events_of_call clock hostname cwd md5_hexdigest serialize websocket_send
     str_keywords str_data str_collectreport).
Local Abbreviation start_events := (start_events hostname cwd md5_hexdigest).
Local Abbreviation started := (started hostname cwd).
Local Abbreviation after_setup := (after_setup clock).
Local Abbreviation case_of_report := (case_of_report str_keywords).

(** What the wire holds after [send_event]: the serialized event is added
    when the event serializes, a connection exists and the send succeeds. *)
Definition transmit (connected : bool) (sent : list string) (ev : Event)
    : list string :=
  match serialize ev with
  | Returned ser_event =>
    if connected
    then match websocket_send sent ser_event with
         | Returned _ => sent ++ [ser_event]
         | Raised _ => sent
         end
    else sent
  | Raised _ => sent
  end.

Definition transmit_all (connected : bool) (sent : list string)
    (evs : list Event) : list string :=
  fold_left (transmit connected) evs sent.

Lemma transmit_all_degraded sent evs : transmit_all false sent evs = sent.
Proof.
  unfold transmit_all. induction evs as [|ev evs IH]; simpl; [done |].
  unfold transmit at 2. by destruct (serialize ev).
Qed.

Lemma transmit_all_healthy (ser : Event -> string) sent evs :
  (forall ev, serialize ev = Returned (ser ev)) ->
  (forall sent msg, websocket_send sent msg = Returned tt) ->
  transmit_all true sent evs = sent ++ map ser evs.
Proof.
  intros Hser Hsend. unfold transmit_all. revert sent.
  induction evs as [|ev evs IH]; intros sent; simpl; [by rewrite app_nil_r |].
  unfold transmit at 2. rewrite Hser, Hsend, IH. by rewrite <- app_assoc.
Qed.

Lemma send_event_full ev w :
  exists log',
    send_event ev w =
    (Returned tt,
     mkWorld (tc_count w) (self w) (clock_reads w) (emitted w ++ [ev])
             (transmit (is_websocket_connected w) (wire w) ev) log').
Proof.
  unfold TestMonitorPlugin.send_event, send_event_failed, call_websocket_send,
    logging_exception, _log, transmit, is_websocket_connected.
  run_monad.
  destruct (serialize ev) as [ser|e]; simpl; [| eauto].
  destruct (_websocket (self w)); simpl; [| eauto].
  destruct (websocket_send (wire w) ser); simpl; eauto.
Qed.

Lemma send_start_event_full w :
  exists log',
    _send_start_event w =
    (Returned tt,
     mkWorld (tc_count w) (set_current_suite (Some suite_name) (self w))
             (clock_reads w)
             (emitted w ++ [SessionStartedEvent suite_name suite_hash (tc_count w)])
             (transmit (is_websocket_connected w) (wire w)
                (SessionStartedEvent suite_name suite_hash (tc_count w)))
             log').
Proof.
  unfold TestMonitorPlugin._send_start_event, modify_self.
  rewrite bind_modify, bind_get.
  match goal with |- context [send_event ?e ?w'] =>
    destruct (send_event_full e w') as (log' & ->) end.
  simpl. eauto.
Qed.

Lemma report_test_case_full r d w :
  exists log',
    report_test_case r d w =
    match VERDICT_MAP !! outcome r with
    | Some verdict =>
      (Returned tt,
       mkWorld (tc_count w)
               (set_reports (reports (started (self w)) ++ [r]) (started (self w)))
               (clock_reads w)
               (emitted w ++ start_events w ++
                [TestCaseFinishedEvent (tc_name r) (fspath r) verdict d suite_hash])
               (transmit_all (is_websocket_connected w) (wire w)
                  (start_events w ++
                   [TestCaseFinishedEvent (tc_name r) (fspath r) verdict d suite_hash]))
               log')
    | None =>
      (Raised (KeyError (outcome r)),
       mkWorld (tc_count w) (started (self w)) (clock_reads w)
               (emitted w ++ start_events w)
               (transmit_all (is_websocket_connected w) (wire w) (start_events w))
               log')
    end.
Proof.
  unfold TestMonitorPlugin.report_test_case, verdict_of, modify_self,
    PluginFacts.start_events, PluginFacts.started, transmit_all.
  rewrite bind_get.
  destruct (_start_message_sent (self w)) eqn:Hsent; simpl negb; cbv iota.
  - rewrite bind_ret.
    destruct (VERDICT_MAP !! outcome r) as [verdict|].
    + rewrite bind_ret.
      destruct (send_event_full
                  (TestCaseFinishedEvent (tc_name r) (fspath r) verdict d suite_hash) w)
        as (log' & Hsend).
      rewrite (bind_returned _ _ _ _ _ Hsend).
      unfold modify. simpl. exists log'. by destruct w.
    + rewrite bind_raise. exists (log w). simpl. rewrite app_nil_r. by destruct w.
  - destruct (send_start_event_full w) as (log1 & Hstart).
    erewrite bind_returned;
      [| erewrite bind_returned; [| apply Hstart]; reflexivity].
    destruct (VERDICT_MAP !! outcome r) as [verdict|].
    + rewrite bind_ret. cbv beta.
      match goal with |- context [bind (send_event ?e) _ ?w'] =>
        destruct (send_event_full e w') as (log' & Hsend) end.
      rewrite (bind_returned _ _ _ _ _ Hsend).
      unfold modify. simpl. exists log'. by rewrite <- app_assoc.
    + rewrite bind_raise. simpl. eauto.
Qed.

(** From [w] to [w']: the connection is the same one, and the wire has
    taken the events emitted in between, in their order. *)
Definition delivers (w w' : World) : Prop :=
  _websocket (self w') = _websocket (self w) /\
  exists evs,
    emitted w' = emitted w ++ evs /\
    wire w' = transmit_all (is_websocket_connected w) (wire w) evs.

Lemma delivers_quiet w w' :
  _websocket (self w') = _websocket (self w) ->
  emitted w' = emitted w -> wire w' = wire w -> delivers w w'.
Proof.
  intros Hself Hem Hwire. split; [done |].
  exists []. by rewrite app_nil_r.
Qed.

Lemma delivers_trans w1 w2 w3 : delivers w1 w2 -> delivers w2 w3 -> delivers w1 w3.
Proof.
  intros (Hws1 & evs1 & Hem1 & Hwire1) (Hws2 & evs2 & Hem2 & Hwire2).
  split; [congruence |]. exists (evs1 ++ evs2).
  rewrite Hem2, Hem1, <- app_assoc. split; [done |].
  rewrite Hwire2, Hwire1. unfold transmit_all, is_websocket_connected.
  by rewrite fold_left_app, Hws1.
Qed.

Lemma started_websocket p : _websocket (started p) = _websocket p.
Proof. unfold PluginFacts.started. by destruct (_start_message_sent p). Qed.

Lemma report_test_case_delivers r d w : delivers w (snd (report_test_case r d w)).
Proof.
  destruct (report_test_case_full r d w) as (log' & ->).
  destruct (VERDICT_MAP !! outcome r); simpl;
    (split; [apply started_websocket | eauto]).
Qed.

Lemma logreport_delivers r w : delivers w (snd (pytest_runtest_logreport r w)).
Proof.
  destruct (String.eqb_spec (when r) "setup") as [Hs|Hs].
  { rewrite logreport_setup by done.
    apply (delivers_trans _ (after_setup r w)); [by apply delivers_quiet |].
    destruct (String.eqb (outcome r) "skipped");
      [apply report_test_case_delivers | by apply delivers_quiet]. }
  destruct (String.eqb_spec (when r) "call") as [Hc|Hc].
  { rewrite logreport_call by done.
    destruct (_test_cases (self w) !! nodeid r) as [t0|];
      [| by apply delivers_quiet].
    apply (delivers_trans _ (after_clock_read w)); [by apply delivers_quiet |].
    apply report_test_case_delivers. }
  rewrite logreport_other by done. by apply delivers_quiet.
Qed.

Lemma call_hook_delivers h w : delivers w (snd (call_hook h w)).
Proof.
  destruct h as [|c|cr|r]; try (by apply delivers_quiet).
  apply logreport_delivers.
Qed.

Lemma run_hooks_delivers hs w : delivers w (run_hooks hs w).
Proof.
  revert w. induction hs as [|h hs IH]; intros w; simpl.
  - by apply delivers_quiet.
  - eapply delivers_trans; [apply call_hook_delivers | apply IH].
Qed.

Lemma sessionfinish_delivers w : delivers w (snd (pytest_sessionfinish w)).
Proof.
  unfold TestMonitorPlugin.pytest_sessionfinish, _log.
  rewrite bind_modify.
  match goal with |- context [bind (send_event ?e) _ ?w'] =>
    destruct (send_event_full e w') as (log1 & H1) end.
  rewrite (bind_returned _ _ _ _ _ H1).
  match goal with |- context [send_event ?e ?w'] =>
    destruct (send_event_full e w') as (log2 & ->) end.
  simpl. split; [done |]. eexists [_; _]. by rewrite <- app_assoc.
Qed.

Lemma init_full url w :
  exists log',
    __init__ url w =
    (Returned tt,
     mkWorld (tc_count w)
             (mkPlugin [] url
                match create_connection url with
                | Returned ws => Some ws
                | Raised _ => None
                end ∅ None false)
             (clock_reads w) (emitted w) (wire w) log').
Proof.
  unfold TestMonitorPlugin.__init__, _log, modify_self. run_monad.
  destruct (create_connection url) as [ws|[]]; simpl; eauto.
Qed.

(** X7: [send_event] is best effort.  It never raises and changes neither
    the plugin nor the counter nor the clock; it puts the serialized event
    on the wire when the event serializes, a connection exists and the send
    succeeds, and leaves the wire as it is in every other case. *)
Theorem send_event_best_effort ev w :
  fst (send_event ev w) = Returned tt /\
  self (snd (send_event ev w)) = self w /\
  tc_count (snd (send_event ev w)) = tc_count w /\
  clock_reads (snd (send_event ev w)) = clock_reads w /\
  emitted (snd (send_event ev w)) = emitted w ++ [ev] /\
  wire (snd (send_event ev w)) =
    match serialize ev, _websocket (self w) with
    | Returned ser_event, Some _ =>
      match websocket_send (wire w) ser_event with
      | Returned _ => wire w ++ [ser_event]
      | Raised _ => wire w
      end
    | _, _ => wire w
    end.
Proof.
  destruct (send_event_full ev w) as (log' & ->). simpl.
  split_and!; try done.
  unfold transmit, is_websocket_connected.
  destruct (serialize ev); [| done]. by destruct (_websocket (self w)).
Qed.

(** X8: making a plugin never raises, whatever the connection attempt does:
    the instance is connected exactly when [create_connection] returns, it
    starts with no reports, no recorded setup times and the start not sent,
    and the counter of the process, the trace and the wire are untouched. *)
Theorem init_survives_connection_failure url w :
  let w' := snd (__init__ url w) in
  fst (__init__ url w) = Returned tt /\
  is_websocket_connected w' =
    match create_connection url with Returned _ => true | Raised _ => false end /\
  reports (self w') = [] /\
  _test_cases (self w') = ∅ /\
  _start_message_sent (self w') = false /\
  tc_count w' = tc_count w /\ emitted w' = emitted w /\ wire w' = wire w.
Proof.
  destruct (init_full url w) as (log' & ->). simpl.
  split_and!; try done.
  unfold is_websocket_connected. simpl. by destruct (create_connection url).
Qed.

(** X9: a session whose connection attempt failed puts nothing on the wire,
    whatever hook calls it gets. *)
Theorem degraded_session_sends_nothing url hs w e :
  create_connection url = Raised e ->
  wire (run_session url hs w) = wire w.
Proof.
  intros Hconn. unfold TestMonitorPlugin.run_session.
  destruct (init_full url w) as (log' & Hinit).
  rewrite Hconn in Hinit. rewrite Hinit. cbn [snd].
  match goal with |- context [run_hooks hs ?w0] =>
    pose proof (delivers_trans _ _ _ (run_hooks_delivers hs w0)
                  (sessionfinish_delivers (run_hooks hs w0)))
      as (_ & evs & _ & ->) end.
  apply transmit_all_degraded.
Qed.

(** X10: in a session whose connection is made, whose events all serialize
    and whose sends all succeed, the wire gets the serialized form of every
    emitted event, in the order of emission. *)
Theorem healthy_session_wire_order url hs w ws (ser : Event -> string) :
  create_connection url = Returned ws ->
  (forall ev, serialize ev = Returned (ser ev)) ->
  (forall sent msg, websocket_send sent msg = Returned tt) ->
  wire (run_session url hs w) =
  wire w ++ map ser (drop (List.length (emitted w)) (emitted (run_session url hs w))).
Proof.
  intros Hconn Hser Hsend. unfold TestMonitorPlugin.run_session.
  destruct (init_full url w) as (log' & Hinit).
  rewrite Hconn in Hinit. rewrite Hinit. cbn [snd].
  match goal with |- context [run_hooks hs ?w0] =>
    pose proof (delivers_trans _ _ _ (run_hooks_delivers hs w0)
                  (sessionfinish_delivers (run_hooks hs w0)))
      as (_ & evs & -> & ->) end.
  rewrite drop_app_length. by apply transmit_all_healthy.
Qed.

Lemma started_test_cases p : _test_cases (started p) = _test_cases p.
Proof. unfold PluginFacts.started. by destruct (_start_message_sent p). Qed.

Lemma started_reports p : reports (started p) = reports p.
Proof. unfold PluginFacts.started. by destruct (_start_message_sent p). Qed.

Lemma report_test_case_test_cases r d w :
  _test_cases (self (snd (report_test_case r d w))) = _test_cases (self w).
Proof.
  destruct (report_test_case_full r d w) as (log' & ->).
  destruct (VERDICT_MAP !! outcome r); simpl; apply started_test_cases.
Qed.

Lemma call_hook_test_cases h w id :
  reports_on id h = false ->
  _test_cases (self (snd (call_hook h w))) !! id = _test_cases (self w) !! id.
Proof.
  destruct h as [|c|cr|r]; simpl; try done.
  intros Hid. apply String.eqb_neq in Hid.
  destruct (String.eqb_spec (when r) "setup") as [Hs|Hs].
  { rewrite logreport_setup by done.
    destruct (String.eqb (outcome r) "skipped");
      rewrite ?report_test_case_test_cases; simpl; by rewrite lookup_insert_ne. }
  destruct (String.eqb_spec (when r) "call") as [Hc|Hc].
  { rewrite logreport_call by done.
    destruct (_test_cases (self w) !! nodeid r);
      by rewrite ?report_test_case_test_cases. }
  by rewrite logreport_other.
Qed.

Lemma run_hooks_test_cases hs w id :
  (forall h, h ∈ hs -> reports_on id h = false) ->
  _test_cases (self (run_hooks hs w)) !! id = _test_cases (self w) !! id.
Proof.
  revert w. induction hs as [|h hs IH]; intros w Hhs; simpl; [done |].
  rewrite IH by (intros h' Hh'; apply Hhs; by apply list_elem_of_further).
  apply call_hook_test_cases, Hhs, list_elem_of_here.
Qed.

Lemma verdict_map_None o :
  VERDICT_MAP !! o = None -> o ∉ ["passed"; "failed"; "skipped"; "error"].
Proof.
  intros Hnone Hin.
  repeat (apply elem_of_cons in Hin as [->|Hin]; [by vm_compute in Hnone |]).
  by apply elem_of_nil in Hin.
Qed.

(** X11: a report of the call phase for a node whose setup was never
    reported is dropped: the hook emits nothing, sends nothing and leaves
    the plugin and the counter as they are; in particular it does not send
    the start event. *)
Theorem call_without_setup_dropped r w :
  when r = "call" ->
  _test_cases (self w) !! nodeid r = None ->
  let w' := snd (pytest_runtest_logreport r w) in
  emitted w' = emitted w /\ wire w' = wire w /\
  self w' = self w /\ tc_count w' = tc_count w.
Proof.
  intros Hwhen Hnone. rewrite logreport_call by done. by rewrite Hnone.
Qed.

(** X12: only reports of the call phase and skipped setups are reported.
    A setup report with another outcome records the clock reading for its
    node and emits nothing; a report of any phase other than setup and call
    (a teardown) changes nothing at all. *)
Theorem unreported_phases r w :
  (when r = "setup" -> outcome r <> "skipped" ->
   pytest_runtest_logreport r w =
   (Returned tt,
    mkWorld (tc_count w)
            (set_test_cases
               (<[nodeid r := clock (clock_reads w)]> (_test_cases (self w)))
               (self w))
            (S (clock_reads w)) (emitted w) (wire w) (log w))) /\
  (when r <> "setup" -> when r <> "call" ->
   pytest_runtest_logreport r w = (Returned tt, w)).
Proof.
  split.
  - intros Hwhen Hout. apply String.eqb_neq in Hout.
    rewrite logreport_setup by done.
    by rewrite Hout.
  - apply logreport_other.
Qed.

(** X13: the setup time that a call report finds for its node is the clock
    reading taken at the setup report of that node, whatever hook calls for
    other nodes come in between; the call report with a mapped outcome then
    returns and emits exactly one case event, with the name and the file of
    the report and the mapped verdict. *)
Theorem setup_time_kept_until_call r1 hs r2 w verdict :
  when r1 = "setup" ->
  when r2 = "call" ->
  nodeid r2 = nodeid r1 ->
  (forall h, h ∈ hs -> reports_on (nodeid r1) h = false) ->
  VERDICT_MAP !! outcome r2 = Some verdict ->
  let w2 := run_hooks hs (snd (pytest_runtest_logreport r1 w)) in
  _test_cases (self w2) !! nodeid r2 = Some (clock (clock_reads w)) /\
  fst (pytest_runtest_logreport r2 w2) = Returned tt /\
  exists duration,
    List.filter is_test_case_finished (events_of_call (RuntestLogreport r2) w2) =
    [TestCaseFinishedEvent (tc_name r2) (fspath r2) verdict duration suite_hash].
Proof.
  intros Hsetup Hcall Hid Hothers Hverdict w2.
  assert (_test_cases (self w2) !! nodeid r2 = Some (clock (clock_reads w)))
    as Hstart.
  { unfold w2. rewrite Hid, run_hooks_test_cases by done.
    rewrite logreport_setup by done.
    destruct (String.eqb (outcome r1) "skipped");
      rewrite ?report_test_case_test_cases; simpl; apply lookup_insert_eq. }
  clearbody w2. split; [done |].
  unfold TestMonitorPlugin.events_of_call. simpl.
  rewrite logreport_call by done. rewrite Hstart.
  match goal with |- context [report_test_case r2 ?d ?w'] =>
    destruct (report_test_case_full r2 d w') as (log' & ->);
    rewrite Hverdict; simpl; split; [done |]; exists d end.
  rewrite drop_app_length. unfold PluginFacts.start_events. simpl.
  by destruct (_start_message_sent (self w2)).
Qed.

(** X14: failures of the connection, of the serialization and of the sends
    never leave a hook.  The session finish returns; and a hook call returns
    too, unless it is a test report whose outcome has no verdict, which
    raises [KeyError].  (A call report without a recorded setup only writes
    a log line; the rendering of log lines is not modelled, so that case is
    left out.) *)
Theorem hooks_raise_only_on_unmapped_outcome h w :
  fst (pytest_sessionfinish w) = Returned tt /\
  ((forall r, h = RuntestLogreport r -> when r = "call" ->
              is_Some (_test_cases (self w) !! nodeid r)) ->
   fst (call_hook h w) = Returned tt \/
   exists r,
     h = RuntestLogreport r /\
     (outcome r ∉ ["passed"; "failed"; "skipped"; "error"]) /\
     fst (call_hook h w) = Raised (KeyError (outcome r))).
Proof.
  split; [| intros _].
  { unfold TestMonitorPlugin.pytest_sessionfinish, _log.
    rewrite bind_modify.
    match goal with |- context [bind (send_event ?e) _ ?w'] =>
      destruct (send_event_full e w') as (log1 & H1) end.
    rewrite (bind_returned _ _ _ _ _ H1).
    match goal with |- context [send_event ?e ?w'] =>
      by destruct (send_event_full e w') as (log2 & ->) end. }
  destruct h as [|c|cr|r]; simpl; try (by left).
  assert (forall d w1,
    fst (report_test_case r d w1) = Returned tt \/
    ((outcome r ∉ ["passed"; "failed"; "skipped"; "error"]) /\
     fst (report_test_case r d w1) = Raised (KeyError (outcome r)))) as Hreport.
  { intros d w1. destruct (report_test_case_full r d w1) as (log' & ->).
    destruct (VERDICT_MAP !! outcome r) eqn:Hmap; [by left | right].
    split; [by apply verdict_map_None | done]. }
  destruct (String.eqb_spec (when r) "setup") as [Hs|Hs].
  { rewrite logreport_setup by done.
    destruct (String.eqb (outcome r) "skipped"); [| by left].
    destruct (Hreport 0%Z (after_setup r w)) as [?|[? ?]]; eauto. }
  destruct (String.eqb_spec (when r) "call") as [Hc|Hc].
  { rewrite logreport_call by done.
    destruct (_test_cases (self w) !! nodeid r) as [t0|]; [| by left].
    match goal with |- context [report_test_case r ?d ?w'] =>
      destruct (Hreport d w') as [?|[? ?]]; eauto end. }
  rewrite logreport_other by done. by left.
Qed.

Lemma call_hook_reports h w :
  exists evs rs,
    emitted (snd (call_hook h w)) = emitted w ++ evs /\
    reports (self (snd (call_hook h w))) = reports (self w) ++ rs /\
    omap case_of_event evs = map case_of_report rs.
Proof.
  assert (forall w', emitted w' = emitted w -> reports (self w') = reports (self w) ->
    exists evs rs,
      emitted w' = emitted w ++ evs /\
      reports (self w') = reports (self w) ++ rs /\
      omap case_of_event evs = map case_of_report rs) as Hquiet.
  { intros w' Hem Hrep. exists [], []. by rewrite !app_nil_r. }
  destruct h as [|c|cr|r]; simpl; try (by apply Hquiet).
  assert (forall d w1, emitted w1 = emitted w -> reports (self w1) = reports (self w) ->
    exists evs rs,
      emitted (snd (report_test_case r d w1)) = emitted w ++ evs /\
      reports (self (snd (report_test_case r d w1))) = reports (self w) ++ rs /\
      omap case_of_event evs = map case_of_report rs) as Hreport.
  { intros d w1 Hem Hrep.
    destruct (report_test_case_full r d w1) as (log' & ->).
    unfold TestMonitorPlugin.case_of_report.
    destruct (VERDICT_MAP !! outcome r) as [verdict|] eqn:Hmap; simpl;
      rewrite Hem, started_reports, Hrep.
    - eexists _, [r]. split; [done |]. split; [done |].
      unfold PluginFacts.start_events. simpl. rewrite Hmap.
      by destruct (_start_message_sent (self w1)).
    - eexists _, []. split; [done |]. split; [by rewrite app_nil_r |].
      unfold PluginFacts.start_events.
      by destruct (_start_message_sent (self w1)). }
  destruct (String.eqb_spec (when r) "setup") as [Hs|Hs].
  { rewrite logreport_setup by done.
    destruct (String.eqb (outcome r) "skipped");
      [by apply Hreport | by apply Hquiet]. }
  destruct (String.eqb_spec (when r) "call") as [Hc|Hc].
  { rewrite logreport_call by done.
    destruct (_test_cases (self w) !! nodeid r) as [t0|];
      [by apply Hreport | by apply Hquiet]. }
  rewrite logreport_other by done. by apply Hquiet.
Qed.

(** X15: the list of reports that a plugin keeps matches the case events of
    its session one to one and in order: each kept report is one whose case
    event was emitted, with the name, the file and the verdict of that
    event. *)
Theorem reports_match_case_events url hs w :
  omap case_of_event
    (drop (List.length (emitted w)) (emitted (run_session url hs w))) =
  map case_of_report (reports (self (run_session url hs w))).
Proof.
  unfold TestMonitorPlugin.run_session.
  destruct (init_full url w) as (log' & ->). cbn [snd].
  match goal with |- context [run_hooks hs ?w0] =>
    assert (exists evs,
      emitted (run_hooks hs w0) = emitted w0 ++ evs /\
      omap case_of_event evs = map case_of_report (reports (self (run_hooks hs w0))))
      as (evs & Hem & Hcases);
    [| set (w1 := run_hooks hs w0) in * ] end.
  { match goal with |- context [run_hooks hs ?w0] =>
      assert (reports (self w0) = []) as Hnil by done; revert Hnil;
      generalize (@nil Event); generalize w0 end.
    clear. intros w0.
    assert (forall pre,
      omap case_of_event pre = map case_of_report (reports (self w0)) ->
      exists evs,
        emitted (run_hooks hs w0) = emitted w0 ++ evs /\
        omap case_of_event (pre ++ evs) =
        map case_of_report (reports (self (run_hooks hs w0)))) as Hgen.
    { revert w0. induction hs as [|h hs IH]; intros w0 pre Hpre; simpl.
      - exists []. by rewrite !app_nil_r.
      - destruct (call_hook_reports h w0) as (evs1 & rs1 & Hem1 & Hrep1 & Hcase1).
        destruct (IH (snd (call_hook h w0)) (pre ++ evs1)) as (evs2 & Hem2 & Hcase2).
        { by rewrite omap_app, Hrep1, map_app, Hpre, Hcase1. }
        exists (evs1 ++ evs2). rewrite Hem2, Hem1, <- app_assoc.
        split; [done |]. by rewrite app_assoc. }
    intros _ Hnil. destruct (Hgen []) as (evs & ? & ?); [by rewrite Hnil |].
    by exists evs. }
  destruct (sessionfinish_delivers w1) as (_ & evs2 & Hem2 & _).
  pose proof (sessionfinish_effect hostname cwd md5_hexdigest serialize
                websocket_send str_data w1) as Hfin.
  rewrite Hfin, Hem. simpl emitted.
  rewrite <- app_assoc, drop_app_length, omap_app, Hcases. simpl.
  rewrite app_nil_r. f_equal. f_equal.
  unfold TestMonitorPlugin.pytest_sessionfinish, _log.
  rewrite bind_modify.
  match goal with |- context [bind (send_event ?e) _ ?w'] =>
    destruct (send_event_full e w') as (log1 & H1) end.
  rewrite (bind_returned _ _ _ _ _ H1).
  match goal with |- context [send_event ?e ?w'] =>
    by destruct (send_event_full e w') as (log2 & ->) end.
Qed.

(** The recorded setup times are clock readings already taken. *)
Definition recorded_before (w : World) : Prop :=
  forall id t,
    _test_cases (self w) !! id = Some t ->
    exists i, i < clock_reads w /\ t = clock i.

Definition durations_nonneg (evs : list Event) : Prop :=
  Forall (fun e => (0 <= duration_of_event e)%Z) evs.

Lemma report_test_case_nonneg r d w :
  (0 <= d)%Z ->
  exists evs,
    emitted (snd (report_test_case r d w)) = emitted w ++ evs /\
    durations_nonneg evs /\
    clock_reads (snd (report_test_case r d w)) = clock_reads w.
Proof.
  intros Hd. destruct (report_test_case_full r d w) as (log' & ->).
  assert (durations_nonneg (start_events w)) as Hstart.
  { unfold PluginFacts.start_events.
    destruct (_start_message_sent (self w)); repeat constructor; simpl; lia. }
  destruct (VERDICT_MAP !! outcome r); simpl; eexists; split_and!; try done.
  apply Forall_app. split; [done |]. repeat constructor; simpl; lia.
Qed.

Lemma call_hook_nonneg h w :
  (forall i j, i <= j -> (clock i <= clock j)%Q) ->
  recorded_before w ->
  recorded_before (snd (call_hook h w)) /\
  exists evs,
    emitted (snd (call_hook h w)) = emitted w ++ evs /\ durations_nonneg evs.
Proof.
  intros Hmono Hrec.
  assert (forall w', self w' = self w -> clock_reads w' = clock_reads w ->
                     emitted w' = emitted w ->
    recorded_before w' /\
    exists evs, emitted w' = emitted w ++ evs /\ durations_nonneg evs) as Hquiet.
  { intros w' Hself Hclk Hem. split.
    - intros id t. rewrite Hself, Hclk. apply Hrec.
    - exists []. rewrite app_nil_r. split; [done | constructor]. }
  destruct h as [|c|cr|r]; try (by apply Hquiet).
  cbn [TestMonitorPlugin.call_hook].
  assert (recorded_before (after_setup r w)) as Hrec_setup.
  { intros id t. simpl. rewrite lookup_insert. case_decide as Hid.
    - intros [= <-]. exists (clock_reads w). split; [lia | done].
    - intros Ht. destruct (Hrec id t Ht) as (i & Hi & ->). exists i. split; [lia | done]. }
  assert (forall d w1,
    (0 <= d)%Z -> recorded_before w1 -> emitted w1 = emitted w ->
    recorded_before (snd (report_test_case r d w1)) /\
    exists evs,
      emitted (snd (report_test_case r d w1)) = emitted w ++ evs /\
      durations_nonneg evs) as Hreport.
  { intros d w1 Hd Hrec1 Hem.
    destruct (report_test_case_nonneg r d w1 Hd) as (evs & Hem1 & Hevs & Hclk).
    split; [| exists evs; by rewrite Hem1, Hem].
    intros id t. rewrite report_test_case_test_cases, Hclk. apply Hrec1. }
  destruct (String.eqb_spec (when r) "setup") as [Hs|Hs].
  { rewrite logreport_setup by done.
    destruct (String.eqb (outcome r) "skipped"); [by apply Hreport |].
    split; [done |]. exists []. rewrite app_nil_r. split; [done | constructor]. }
  destruct (String.eqb_spec (when r) "call") as [Hc|Hc].
  { rewrite logreport_call by done.
    destruct (_test_cases (self w) !! nodeid r) as [t0|] eqn:Ht0;
      [| by apply Hquiet].
    destruct (Hrec _ _ Ht0) as (i & Hi & ->).
    apply Hreport; [| | done].
    - apply py_int_nonneg.
      assert ((clock i <= clock (clock_reads w))%Q) as Hle by (apply Hmono; lia).
      apply Qmult_le_0_compat; [| done].
      by apply -> Qle_minus_iff.
    - intros id t Ht. destruct (Hrec id t Ht) as (j & Hj & ->).
      exists j. simpl. split; [lia | done]. }
  rewrite logreport_other by done. by apply Hquiet.
Qed.

Lemma run_hooks_nonneg hs w :
  (forall i j, i <= j -> (clock i <= clock j)%Q) ->
  recorded_before w ->
  exists evs,
    emitted (run_hooks hs w) = emitted w ++ evs /\ durations_nonneg evs.
Proof.
  intros Hmono. revert w. induction hs as [|h hs IH]; intros w Hrec; simpl.
  - exists []. rewrite app_nil_r. split; [done | constructor].
  - destruct (call_hook_nonneg h w Hmono Hrec) as (Hrec1 & evs1 & Hem1 & Hevs1).
    destruct (IH _ Hrec1) as (evs2 & Hem2 & Hevs2).
    exists (evs1 ++ evs2). rewrite Hem2, Hem1, <- app_assoc.
    split; [done |]. by apply Forall_app.
Qed.

(** X16: when the clock never goes backwards, no case event of a session
    carries a negative duration. *)
Theorem durations_never_negative url hs w :
  (forall i j, i <= j -> (clock i <= clock j)%Q) ->
  Forall (fun e => (0 <= duration_of_event e)%Z)
    (drop (List.length (emitted w)) (emitted (run_session url hs w))).
Proof.
  intros Hmono. unfold TestMonitorPlugin.run_session.
  destruct (init_full url w) as (log' & ->). cbn [snd].
  match goal with |- context [run_hooks hs ?w0] =>
    destruct (run_hooks_nonneg hs w0 Hmono) as (evs & Hem & Hevs);
    [ by intros id t | ];
    pose proof (sessionfinish_effect hostname cwd md5_hexdigest serialize
                  websocket_send str_data (run_hooks hs w0)) as Hfin end.
  rewrite Hfin, Hem. simpl emitted.
  rewrite <- app_assoc, drop_app_length.
  apply Forall_app. split; [done |]. repeat constructor; simpl; lia.
Qed.

Lemma sessionfinish_tc_count w :
  tc_count (snd (pytest_sessionfinish w)) = tc_count w.
Proof.
  unfold TestMonitorPlugin.pytest_sessionfinish, _log.
  rewrite bind_modify.
  match goal with |- context [bind (send_event ?e) _ ?w'] =>
    destruct (send_event_full e w') as (log1 & H1) end.
  rewrite (bind_returned _ _ _ _ _ H1).
  match goal with |- context [send_event ?e ?w'] =>
    by destruct (send_event_full e w') as (log2 & ->) end.
Qed.

Lemma run_hooks_tc_count hs w :
  tc_count (run_hooks hs w) = tc_count w + sum_list (map items_collected hs).
Proof.
  revert w. induction hs as [|h hs IH]; intros w; simpl; [lia |].
  rewrite IH.
  assert (tc_count (snd (call_hook h w)) = tc_count w + items_collected h) as ->;
    [| lia].
  destruct h as [|c|cr|r]; simpl; try lia.
  destruct (logreport_effect clock hostname cwd md5_hexdigest serialize
              websocket_send str_keywords str_data r w) as [-> _]. lia.
Qed.

(** X18: over a whole session the counter of the process grows by the
    number of test items in the collection reports and by nothing else:
    test reports, the other hooks, the new instance and the session finish
    leave it alone, whether they raise or not. *)
Theorem tc_count_of_session url hs w :
  tc_count (run_session url hs w) =
  tc_count w + sum_list (map items_collected hs).
Proof.
  unfold TestMonitorPlugin.run_session.
  rewrite sessionfinish_tc_count, run_hooks_tc_count.
  by destruct (init_full url w) as (log' & ->).
Qed.

End Delivery.


(** X17: the name shown for a test case is the second component of its node
    id, also when more components follow, so that the methods of a test
    class all go by the name of the class; a node id made of one component
    is shown as [PEP8] when the report carries the keyword [pep8], and as
    the text of its keywords otherwise. *)
Theorem tc_name_components str_keywords r :
  (forall file name tail,
     nodeid r = file +:+ "::" +:+ name +:+ tail ->
     contains_char ":" file = false ->
     contains_char ":" name = false ->
     tail = "" \/ (exists more, tail = "::" +:+ more) ->
     tc_name str_keywords r = name) /\
  (contains_char ":" (nodeid r) = false ->
   tc_name str_keywords r =
   if bool_decide ("pep8" ∈ keywords r) then "PEP8"
   else str_keywords (keywords r)).
Proof.
  unfold tc_name, split. split.
  - intros file name tail -> Hfile Hname Htail.
    rewrite split_go_sep by done. simpl "+:+".
    destruct Htail as [->|[more ->]].
    + by rewrite append_nil_r, split_go_plain.
    + rewrite split_go_sep by done. simpl.
      by destruct (split_go "::" more "" 0).
  - intros Hplain. by rewrite split_go_plain.
Qed.




(** *** The further properties on concrete sessions *)

Example wire_of_two_cases :
  wire (connected_session [RuntestLogreport setup_A; RuntestLogreport call_A;
                           RuntestLogreport setup_B; RuntestLogreport call_B]) =
  ["session_started"; "tc_finished"; "tc_finished"; "session_terminated";
   "terminate_connection"].
Proof. vm_compute. reflexivity. Qed.

Example wire_after_connection_loss :
  wire (run_session quarter_clock "host" "/work" fixed_digest accepted event_kind
          breaks_after_one keywords_text data_text collectreport_text
          "ws://localhost:5000/event"
          [RuntestLogreport setup_A; RuntestLogreport call_A] new_process) =
  ["session_started"].
Proof. vm_compute. reflexivity. Qed.

Lemma degraded_session_sends_nothing_witness :
  refused "ws://localhost:5000/event" = Raised (Exception "connection refused") /\
  wire (session [RuntestLogreport setup_A; RuntestLogreport call_A]) =
  wire new_process.
Proof.
  split; [reflexivity |].
  apply (degraded_session_sends_nothing quarter_clock "host" "/work" fixed_digest
           refused event_kind delivered keywords_text data_text
           collectreport_text "ws://localhost:5000/event"
           [RuntestLogreport setup_A; RuntestLogreport call_A] new_process
           (Exception "connection refused")).
  reflexivity.
Defined.

Lemma event_kind_total ev : event_kind ev = Returned (kind_of ev).
Proof. by destruct ev. Defined.

Lemma healthy_session_wire_order_witness :
  let hs := [RuntestLogreport setup_A; RuntestLogreport call_A] in
  (accepted "ws://localhost:5000/event" =
     Returned (Connection "ws://localhost:5000/event") /\
   (forall ev, event_kind ev = Returned (kind_of ev)) /\
   (forall sent msg, delivered sent msg = Returned tt)) /\
  wire (connected_session hs) =
  wire new_process ++
  map kind_of (drop (List.length (emitted new_process))
                    (emitted (connected_session hs))).
Proof.
  intros hs.
  split; [split_and!; [reflexivity | apply event_kind_total | reflexivity] |].
  apply (healthy_session_wire_order quarter_clock "host" "/work" fixed_digest
           accepted event_kind delivered keywords_text data_text
           collectreport_text "ws://localhost:5000/event" hs new_process
           (Connection "ws://localhost:5000/event") kind_of);
    [reflexivity | apply event_kind_total | reflexivity].
Defined.

Lemma call_without_setup_dropped_witness :
  (when call_A = "call" /\ _test_cases (self new_process) !! nodeid call_A = None) /\
  emitted
    (snd (pytest_runtest_logreport quarter_clock "host" "/work" fixed_digest
            event_kind delivered keywords_text data_text call_A new_process)) =
  emitted new_process.
Proof.
  split; [by split |].
  apply (call_without_setup_dropped quarter_clock "host" "/work" fixed_digest
           event_kind delivered keywords_text data_text call_A new_process);
    reflexivity.
Defined.

Lemma unreported_phases_witness :
  (when teardown_A <> "setup" /\ when teardown_A <> "call") /\
  pytest_runtest_logreport quarter_clock "host" "/work" fixed_digest
    event_kind delivered keywords_text data_text teardown_A new_process =
  (Returned tt, new_process).
Proof.
  assert (when teardown_A <> "setup") as Hs by discriminate.
  assert (when teardown_A <> "call") as Hc by discriminate.
  split; [by split |].
  exact (proj2 (unreported_phases quarter_clock "host" "/work" fixed_digest
                  event_kind delivered keywords_text data_text teardown_A
                  new_process) Hs Hc).
Defined.

Lemma setup_time_kept_until_call_witness :
  let hs := [RuntestLogreport setup_B; RuntestLogreport call_B] in
  (when setup_A = "setup" /\ when call_A = "call" /\
   nodeid call_A = nodeid setup_A /\
   VERDICT_MAP !! outcome call_A = Some "pass") /\
  _test_cases
    (self (run_hooks quarter_clock "host" "/work" fixed_digest event_kind
             delivered keywords_text data_text collectreport_text hs
             (snd (pytest_runtest_logreport quarter_clock "host" "/work"
                     fixed_digest event_kind delivered keywords_text data_text
                     setup_A new_process))))
    !! nodeid call_A = Some (quarter_clock (clock_reads new_process)).
Proof.
  intros hs. split; [by split_and! |].
  apply (setup_time_kept_until_call quarter_clock "host" "/work" fixed_digest
           event_kind delivered keywords_text data_text collectreport_text
           setup_A hs call_A new_process "pass");
    [reflexivity | reflexivity | reflexivity | | reflexivity].
  apply Forall_forall. repeat constructor.
Defined.

Example duration_of_A_after_B :
  List.filter is_test_case_finished
    (emitted (session [RuntestLogreport setup_A;
                       RuntestLogreport setup_B; RuntestLogreport call_B;
                       RuntestLogreport call_A])) =
  [TestCaseFinishedEvent "B" "t.py" "fail" 250 "md5(host: /work)";
   TestCaseFinishedEvent "A" "t.py" "pass" 750 "md5(host: /work)"].
Proof. vm_compute. reflexivity. Qed.

Lemma quarter_clock_monotone i j :
  i <= j -> (quarter_clock i <= quarter_clock j)%Q.
Proof.
  intros Hij. unfold quarter_clock, Qdiv.
  apply Qmult_le_compat_r; [| done].
  rewrite <- Zle_Qle. lia.
Defined.

Lemma durations_never_negative_witness :
  let hs := [RuntestLogreport setup_A; RuntestLogreport call_A] in
  (forall i j, i <= j -> (quarter_clock i <= quarter_clock j)%Q) /\
  Forall (fun e => (0 <= duration_of_event e)%Z)
    (drop (List.length (emitted new_process)) (emitted (session hs))).
Proof.
  intros hs. split; [apply quarter_clock_monotone |].
  apply (durations_never_negative quarter_clock "host" "/work" fixed_digest
           refused event_kind delivered keywords_text data_text
           collectreport_text "ws://localhost:5000/event" hs new_process).
  apply quarter_clock_monotone.
Defined.

Example negative_duration :
  List.filter is_test_case_finished
    (emitted (run_session clock_set_back "host" "/work" fixed_digest refused
                event_kind delivered keywords_text data_text collectreport_text
                "ws://localhost:5000/event"
                [RuntestLogreport setup_A; RuntestLogreport call_A] new_process)) =
  [TestCaseFinishedEvent "A" "t.py" "pass" (-3000) "md5(host: /work)"].
Proof. vm_compute. reflexivity. Qed.

Lemma tc_name_components_witness :
  (nodeid method_report = "tests/a_test.py" +:+ "::" +:+ "TestThing" +:+ "::test_one" /\
   contains_char ":" "tests/a_test.py" = false /\
   contains_char ":" "TestThing" = false) /\
  tc_name keywords_text method_report = "TestThing".
Proof.
  split; [by split_and! |].
  apply (proj1 (tc_name_components keywords_text method_report)
           "tests/a_test.py" "TestThing" "::test_one");
    [reflexivity | reflexivity | reflexivity |].
  right. by exists "test_one".
Defined.

Lemma hooks_raise_only_on_unmapped_outcome_witness :
  let h := RuntestLogreport call_D in
  let result :=
    fst (call_hook quarter_clock "host" "/work" fixed_digest event_kind delivered
           keywords_text data_text collectreport_text h after_setup_D) in
  (forall r, h = RuntestLogreport r -> when r = "call" ->
             is_Some (_test_cases (self after_setup_D) !! nodeid r)) /\
  (result = Returned tt \/
   exists r,
     h = RuntestLogreport r /\
     (outcome r ∉ ["passed"; "failed"; "skipped"; "error"]) /\
     result = Raised (KeyError (outcome r))).
Proof.
  intros h result.
  assert (forall r, h = RuntestLogreport r -> when r = "call" ->
                    is_Some (_test_cases (self after_setup_D) !! nodeid r)) as Hrec.
  { intros r [= <-] _. apply setup_D_recorded. }
  split; [exact Hrec |].
  exact (proj2 (hooks_raise_only_on_unmapped_outcome quarter_clock "host" "/work"
                  fixed_digest event_kind delivered keywords_text data_text
                  collectreport_text h after_setup_D) Hrec).
Defined.

End PluginFacts.
